(** * OpenAPI to MCP tool generator: a shallow embedding of [openapi_to_mcp.py]

    The generator is a Python class [OpenAPIToMCP] working on the value
    returned by [json.load].  The embedding keeps Python's dynamic typing:
    every document is a [pyval], a method call on a value of the wrong kind
    raises, and the functions of the class return in an error result.

    Conventions of the model:
    - characters are 8-bit ([Ascii.ascii]); case mapping ([lower], [upper],
      [capitalize]) acts on the ASCII letters and leaves other bytes alone,
      and [repr] writes the bytes above 127 as they are.  Python maps the
      case of every letter, so the three functions are those of Python on
      ASCII text, and not beyond it ([Spec.ascii_text] is the test, and
      the hypothesis of the theorems that give the text of a name over
      arbitrary paths);
    - JSON numbers are integers ([PInt]); the generator never computes with a
      number, it only copies, tests and prints them;
    - a Python [dict] is an association list in insertion order; lookup takes
      the first entry whose key compares equal. *)

From Stdlib Require Import String Ascii List ZArith Bool Lia DecimalString.
Import ListNotations.

Local Open Scope string_scope.
Local Open Scope list_scope.

(** String concatenation gets an operator of its own, since [++] is taken
    by lists in this file. *)
Infix "^^" := String.append (at level 60, right associativity).

(* ================================================================== *)
(** ** Python values and builtins *)

Module Py.

Inductive exn : Type :=
| AttributeError
| KeyError
| TypeError.

Inductive result (A : Type) : Type :=
| Ok (a : A)
| Raise (e : exn).

Arguments Ok {A} a.
Arguments Raise {A} e.

Definition bind {A B : Type} (c : result A) (k : A -> result B) : result B :=
  match c with
  | Ok a => k a
  | Raise e => Raise e
  end.

(** A [for] loop whose body updates the local state [s] and may raise. *)
Fixpoint for_each {A S : Type} (l : list A) (s : S) (body : A -> S -> result S)
  : result S :=
  match l with
  | [] => Ok s
  | x :: rest =>
      match body x s with
      | Ok s' => for_each rest s' body
      | Raise e => Raise e
      end
  end.

Definition returns {A : Type} (c : result A) : bool :=
  match c with
  | Ok _ => true
  | Raise _ => false
  end.

(** Values produced by [json.load], and the dictionaries and lists the
    generator builds from them. *)
#[warnings="-register-all"]
Inductive pyval : Type :=
| PNone
| PBool (b : bool)
| PInt (n : Z)
| PStr (s : string)
| PList (l : list pyval)
| PDict (m : list (pyval * pyval)).

Definition dict : Type := list (pyval * pyval).

(** [bool(v)]: the test of [if v:]. *)
Definition truthy (v : pyval) : bool :=
  match v with
  | PNone => false
  | PBool b => b
  | PInt n => negb (Z.eqb n 0)
  | PStr s => negb (String.eqb s "")
  | PList l => match l with [] => false | _ :: _ => true end
  | PDict m => match m with [] => false | _ :: _ => true end
  end.

Definition hashable (v : pyval) : bool :=
  match v with
  | PList _ | PDict _ => false
  | _ => true
  end.

(** [a == b] where one side is hashable (a string, a number, a boolean or
    [None]); [True == 1] and [False == 0] as in Python.  A list or a
    dictionary never equals such a value. *)
Definition key_eq (a b : pyval) : bool :=
  match a, b with
  | PNone, PNone => true
  | PStr x, PStr y => String.eqb x y
  | PInt x, PInt y => Z.eqb x y
  | PBool x, PBool y => Bool.eqb x y
  | PInt x, PBool y => Z.eqb x (Z.b2z y)
  | PBool x, PInt y => Z.eqb (Z.b2z x) y
  | _, _ => false
  end.

(** [v == 'literal'] *)
Definition eq_str (v : pyval) (s : string) : bool := key_eq v (PStr s).

Fixpoint lookup (m : dict) (k : pyval) : option pyval :=
  match m with
  | [] => None
  | (k', v) :: rest => if key_eq k' k then Some v else lookup rest k
  end.

(** [m[k] = v] on a dictionary: an existing key keeps its place and gets
    the new value, a new key goes to the end. *)
Fixpoint update (m : dict) (k v : pyval) : dict :=
  match m with
  | [] => [(k, v)]
  | (k', v') :: rest =>
      if key_eq k' k then (k', v) :: rest else (k', v') :: update rest k v
  end.

Definition keys (m : dict) : list pyval := map fst m.

(** [d.get(k, default)] with a string key. *)
Definition get (d : pyval) (k : string) (default : pyval) : result pyval :=
  match d with
  | PDict m =>
      match lookup m (PStr k) with
      | Some v => Ok v
      | None => Ok default
      end
  | _ => Raise AttributeError
  end.

(** [d[k]] with a string key. *)
Definition getitem (d : pyval) (k : string) : result pyval :=
  match d with
  | PDict m =>
      match lookup m (PStr k) with
      | Some v => Ok v
      | None => Raise KeyError
      end
  | _ => Raise TypeError
  end.

(** [m[k] = v] *)
Definition setitem (m : dict) (k v : pyval) : result dict :=
  if hashable k then Ok (update m k v) else Raise TypeError.

(** [d.items()] *)
Definition items (d : pyval) : result dict :=
  match d with
  | PDict m => Ok m
  | _ => Raise AttributeError
  end.

Definition chars (s : string) : list pyval :=
  map (fun c => PStr (String c EmptyString)) (list_ascii_of_string s).

(** The elements a [for] loop (or [list.extend], or [str.join]) draws from
    a value. *)
Definition iter (v : pyval) : result (list pyval) :=
  match v with
  | PList l => Ok l
  | PDict m => Ok (keys m)
  | PStr s => Ok (chars s)
  | _ => Raise TypeError
  end.

(** *** Strings *)

Definition is_upper (c : ascii) : bool :=
  let n := nat_of_ascii c in Nat.leb 65 n && Nat.leb n 90.

Definition is_lower (c : ascii) : bool :=
  let n := nat_of_ascii c in Nat.leb 97 n && Nat.leb n 122.

Definition lower_char (c : ascii) : ascii :=
  if is_upper c then ascii_of_nat (nat_of_ascii c + 32) else c.

Definition upper_char (c : ascii) : ascii :=
  if is_lower c then ascii_of_nat (nat_of_ascii c - 32) else c.

Fixpoint map_string (f : ascii -> ascii) (s : string) : string :=
  match s with
  | EmptyString => EmptyString
  | String c rest => String (f c) (map_string f rest)
  end.

Definition str_lower (s : string) : string := map_string lower_char s.
Definition str_upper (s : string) : string := map_string upper_char s.

(** [s.capitalize()]: the first character in upper case, all the others in
    lower case.  As [str_lower] and [str_upper], it is Python's function
    on ASCII text only: a letter beyond ASCII is left as it is here. *)
Definition str_capitalize (s : string) : string :=
  match s with
  | EmptyString => EmptyString
  | String c rest => String (upper_char c) (str_lower rest)
  end.

(** [s.startswith(p)] *)
Definition str_startswith (s p : string) : bool := String.prefix p s.

(** [t in s] for two strings. *)
Fixpoint str_contains (s t : string) : bool :=
  String.prefix t s ||
  match s with
  | EmptyString => false
  | String _ rest => str_contains rest t
  end.

(** [s.split(sep)] for a one-character separator: the pieces between the
    separators, empty ones included. *)
Fixpoint str_split (sep : ascii) (s : string) : list string :=
  match s with
  | EmptyString => [EmptyString]
  | String c rest =>
      if Ascii.eqb c sep then EmptyString :: str_split sep rest
      else
        match str_split sep rest with
        | [] => [String c EmptyString]
        | piece :: pieces => String c piece :: pieces
        end
  end.

(** [sep.join(l)] *)
Definition str_join (sep : string) (l : list string) : string :=
  String.concat sep l.

(** Methods of [str] called on an arbitrary value. *)
Definition lower (v : pyval) : result string :=
  match v with
  | PStr s => Ok (str_lower s)
  | _ => Raise AttributeError
  end.

Definition upper (v : pyval) : result string :=
  match v with
  | PStr s => Ok (str_upper s)
  | _ => Raise AttributeError
  end.

Definition startswith (v : pyval) (p : string) : result bool :=
  match v with
  | PStr s => Ok (str_startswith s p)
  | _ => Raise AttributeError
  end.

Definition split (v : pyval) (sep : ascii) : result (list string) :=
  match v with
  | PStr s => Ok (str_split sep s)
  | _ => Raise AttributeError
  end.

(** [x in c], for a hashable [x]. *)
Definition contains (c x : pyval) : result bool :=
  match c with
  | PList l => Ok (existsb (key_eq x) l)
  | PDict m =>
      if hashable x
      then Ok (match lookup m x with Some _ => true | None => false end)
      else Raise TypeError
  | PStr s =>
      match x with
      | PStr t => Ok (str_contains s t)
      | _ => Raise TypeError
      end
  | _ => Raise TypeError
  end.

(** [s in l] for a string and a list literal of strings. *)
Definition in_strs (s : string) (l : list string) : bool :=
  existsb (String.eqb s) l.

Definition not_none (v : pyval) : bool :=
  match v with
  | PNone => false
  | _ => true
  end.

(** [obj[field][k] = v]: a store into a dictionary held by a dictionary. *)
Definition setitem_in (obj : pyval) (field : string) (k v : pyval) : result pyval :=
  match obj with
  | PDict m =>
      match lookup m (PStr field) with
      | Some (PDict inner) =>
          match setitem inner k v with
          | Ok inner' => Ok (PDict (update m (PStr field) (PDict inner')))
          | Raise e => Raise e
          end
      | Some _ => Raise TypeError
      | None => Raise KeyError
      end
  | _ => Raise TypeError
  end.

(** [obj[field][k]] *)
Definition getitem_in (obj : pyval) (field : string) (k : pyval) : result pyval :=
  match obj with
  | PDict m =>
      match lookup m (PStr field) with
      | Some (PDict inner) =>
          match lookup inner k with
          | Some v => Ok v
          | None => Raise KeyError
          end
      | Some _ => Raise TypeError
      | None => Raise KeyError
      end
  | _ => Raise TypeError
  end.

(** [obj[field].extend(vs)]; [obj[field].append(v)] is [extend_in obj field [v]]. *)
Definition extend_in (obj : pyval) (field : string) (vs : list pyval) : result pyval :=
  match obj with
  | PDict m =>
      match lookup m (PStr field) with
      | Some (PList l) => Ok (PDict (update m (PStr field) (PList (l ++ vs))))
      | Some _ => Raise AttributeError
      | None => Raise KeyError
      end
  | _ => Raise TypeError
  end.

Definition append_in (obj : pyval) (field : string) (v : pyval) : result pyval :=
  extend_in obj field [v].

(** *** [str(v)] and [repr(v)] *)

Definition dquote : string := String (ascii_of_nat 34) EmptyString.
Definition squote : string := "'".
Definition newline : string := String (ascii_of_nat 10) EmptyString.

Definition int_to_str (n : Z) : string := NilZero.string_of_int (Z.to_int n).

Definition hex_digit (n : nat) : ascii :=
  if Nat.ltb n 10 then ascii_of_nat (48 + n) else ascii_of_nat (87 + n).

Definition hex_escape (c : ascii) : string :=
  let n := nat_of_ascii c in
  "\x" ^^ String (hex_digit (n / 16)) (String (hex_digit (n mod 16)) EmptyString).

(** One character of a string literal written by [repr], inside the quote
    character [q]. *)
Definition repr_char (q : ascii) (c : ascii) : string :=
  let n := nat_of_ascii c in
  if Ascii.eqb c "\"%char then "\\"
  else if Ascii.eqb c q then String "\"%char (String c EmptyString)
  else if Nat.eqb n 10 then "\n"
  else if Nat.eqb n 13 then "\r"
  else if Nat.eqb n 9 then "\t"
  else if Nat.ltb n 32 || Nat.eqb n 127 then hex_escape c
  else String c EmptyString.

Fixpoint repr_chars (q : ascii) (s : string) : string :=
  match s with
  | EmptyString => EmptyString
  | String c rest => repr_char q c ^^ repr_chars q rest
  end.

(** [repr] of a string: single quotes, unless the string holds a single
    quote and no double quote. *)
Definition repr_str (s : string) : string :=
  if str_contains s squote && negb (str_contains s dquote)
  then dquote ^^ repr_chars (ascii_of_nat 34) s ^^ dquote
  else squote ^^ repr_chars "'"%char s ^^ squote.

Fixpoint repr (v : pyval) : string :=
  match v with
  | PNone => "None"
  | PBool true => "True"
  | PBool false => "False"
  | PInt n => int_to_str n
  | PStr s => repr_str s
  | PList l => "[" ^^ str_join ", " (map repr l) ^^ "]"
  | PDict m =>
      "{" ^^ str_join ", " (map (fun kv => repr (fst kv) ^^ ": " ^^ repr (snd kv)) m) ^^ "}"
  end.

(** [str(v)], which is what an f-string writes for [{v}]. *)
Definition str (v : pyval) : string :=
  match v with
  | PStr s => s
  | _ => repr v
  end.

(** *** Words *)

(** [c.isspace()] on the ASCII range. *)
Definition is_space (c : ascii) : bool :=
  let n := nat_of_ascii c in
  (Nat.leb 9 n && Nat.leb n 13) || (Nat.leb 28 n && Nat.leb n 32).

Definition is_digit (c : ascii) : bool :=
  let n := nat_of_ascii c in Nat.leb 48 n && Nat.leb n 57.

(** The class [[a-zA-Z0-9]]. *)
Definition is_alnum (c : ascii) : bool :=
  is_lower c || is_upper c || is_digit c.

(** The pieces of [s] between the characters that satisfy [sep], empty
    ones included. *)
Fixpoint str_split_by (sep : ascii -> bool) (s : string) : list string :=
  match s with
  | EmptyString => [EmptyString]
  | String c rest =>
      if sep c then EmptyString :: str_split_by sep rest
      else
        match str_split_by sep rest with
        | [] => [String c EmptyString]
        | piece :: pieces => String c piece :: pieces
        end
  end.

(** [s.split()]: the words between runs of white space. *)
Definition str_words (s : string) : list string :=
  filter (fun w => negb (String.eqb w "")) (str_split_by is_space s).

End Py.

Notation "x <- c ;; k" := (Py.bind c (fun x => k))
  (at level 61, c at next level, right associativity).

(* ================================================================== *)
(** ** The regular expression of the name synthesizer *)

Module Re.

(** Length of the match of [[^}]*\}] at the head of [s]: the characters up
    to and including the first closing brace. *)
Fixpoint to_rbrace (s : string) : option nat :=
  match s with
  | EmptyString => None
  | String c rest =>
      if Ascii.eqb c "}"%char then Some 1 else option_map S (to_rbrace rest)
  end.

(** Length of the match of [\{[^}]+\}] at the head of [s].  The greedy
    [[^}]+] stops at the first closing brace, and it needs one character
    at least. *)
Definition param_match (s : string) : option nat :=
  match s with
  | EmptyString => None
  | String c rest =>
      if Ascii.eqb c "{"%char then
        match to_rbrace rest with
        | Some (S (S n)) => Some (S (S (S n)))
        | _ => None
        end
      else None
  end.

(** The scan of [re.sub]: at each position the leftmost match is dropped
    ([skip] counts the characters of it still to drop), any other
    character is kept. *)
Fixpoint sub_from (skip : nat) (s : string) : string :=
  match s with
  | EmptyString => EmptyString
  | String c rest =>
      match skip with
      | S k => sub_from k rest
      | O =>
          match param_match s with
          | Some (S k) => sub_from k rest
          | _ => String c (sub_from 0 rest)
          end
      end
  end.

(** [re.sub(r'\{[^}]+\}', '', s)] on a string. *)
Definition strip_params (s : string) : string := sub_from 0 s.

(** [re.sub(r'\{[^}]+\}', '', v)]; a value that is not a string raises. *)
Definition sub_params (v : Py.pyval) : Py.result string :=
  match v with
  | Py.PStr s => Py.Ok (strip_params s)
  | _ => Py.Raise Py.TypeError
  end.

End Re.

(* ================================================================== *)
(** ** The class [OpenAPIToMCP] *)

Module OpenAPIToMCP.
Import Py.

(** The attributes [__init__] sets on [self]. *)
Record t : Type := mk {
  spec : pyval;
  info : pyval;
  servers : pyval;
  paths : pyval;
  components : pyval;
  security : pyval
}.

Definition __init__ (openapi_spec : pyval) : result t :=
  info <- get openapi_spec "info" (PDict []) ;;
  servers <- get openapi_spec "servers" (PList []) ;;
  paths <- get openapi_spec "paths" (PDict []) ;;
  components <- get openapi_spec "components" (PDict []) ;;
  security <- get openapi_spec "security" (PList []) ;;
  Ok (mk openapi_spec info servers paths components security).

(** *** Schema type resolver *)

(** The literal of one [enum] value: [f'"{val}"']. *)
Definition enum_literal (val : pyval) : string := dquote ^^ str val ^^ dquote.

(** [_get_typescript_type].  The recursion follows ['items'] only; to keep
    it structural the lookup of ['items'] is the inner loop [items_type],
    whose default case is the type of [{}], ['any'].  Lemma
    [_get_typescript_type_unfold] gives the equation in the source's
    shape. *)
Fixpoint _get_typescript_type (schema : pyval) : result string :=
  match schema with
  | PDict m =>
      let schema_type :=
        match lookup m (PStr "type") with Some v => v | None => PStr "any" end in
      if eq_str schema_type "string" then
        let enum_values :=
          match lookup m (PStr "enum") with Some v => v | None => PNone end in
        if truthy enum_values then
          vals <- iter enum_values ;;
          Ok (str_join " | " (map enum_literal vals))
        else Ok "string"
      else if eq_str schema_type "integer" || eq_str schema_type "number" then
        Ok "number"
      else if eq_str schema_type "boolean" then
        Ok "boolean"
      else if eq_str schema_type "array" then
        item_type <-
          (fix items_type (l : dict) : result string :=
             match l with
             | [] => Ok "any"
             | (k, v) :: rest =>
                 if key_eq k (PStr "items") then _get_typescript_type v
                 else items_type rest
             end) m ;;
        Ok (item_type ^^ "[]")
      else if eq_str schema_type "object" then
        Ok "any"
      else
        Ok "any"
  | _ => Raise AttributeError
  end.

(** *** Interface text generator *)

Definition interface_header (name : pyval) : string :=
  "interface " ^^ str name ^^ " {".

Definition description_line (description : pyval) : string :=
  "  /** " ^^ str description ^^ " */".

Definition field_line (prop_name : pyval) (optional prop_type : string) : string :=
  "  " ^^ str prop_name ^^ optional ^^ ": " ^^ prop_type ^^ ";".

(** The body of the loop over [properties.items()] in
    [_generate_interface]. *)
Definition interface_property (required : pyval) (prop : pyval * pyval)
    (interface_lines : list string) : result (list string) :=
  let (prop_name, prop_def) := prop in
  prop_type <- _get_typescript_type prop_def ;;
  is_required <- contains required prop_name ;;
  let optional := if is_required then "" else "?" in
  description <- get prop_def "description" (PStr "") ;;
  let interface_lines :=
    if truthy description
    then interface_lines ++ [description_line description]
    else interface_lines in
  Ok (interface_lines ++ [field_line prop_name optional prop_type]).

(** The list [interface_lines] of [_generate_interface] when the function
    reaches its last line; [None] when it returned at the type test. *)
Definition interface_lines (name schema : pyval) : result (option (list string)) :=
  schema_type <- get schema "type" PNone ;;
  if negb (eq_str schema_type "object") then Ok None
  else
    properties <- get schema "properties" (PDict []) ;;
    required <- get schema "required" (PList []) ;;
    props <- items properties ;;
    lines <- for_each props [interface_header name] (interface_property required) ;;
    Ok (Some (lines ++ ["}"])).

Definition _generate_interface (name schema : pyval) : result string :=
  lines <- interface_lines name schema ;;
  match lines with
  | None => Ok ""
  | Some l => Ok (str_join newline l)
  end.

Definition generate_typescript_interfaces (self : t) : result string :=
  schemas <- get (components self) "schemas" (PDict []) ;;
  entries <- items schemas ;;
  interfaces <-
    for_each entries []
      (fun (entry : pyval * pyval) (interfaces : list string) =>
         let (schema_name, schema_def) := entry in
         interface <- _generate_interface schema_name schema_def ;;
         if truthy (PStr interface)
         then Ok (interfaces ++ [interface])
         else Ok interfaces) ;;
  Ok (str_join (newline ^^ newline) interfaces).

(** *** Operation ID synthesizer *)

Definition nonempty (s : string) : bool := negb (String.eqb s "").

Definition verb_prefix (path : pyval) (method_lower : string) : result string :=
  if String.eqb method_lower "get" then Ok "get"
  else if String.eqb method_lower "post" then
    path_lower <- lower path ;;
    Ok (if str_contains path_lower "create" then "create" else "post")
  else if String.eqb method_lower "put" then Ok "update"
  else if String.eqb method_lower "delete" then Ok "delete"
  else Ok method_lower.

Definition _generate_operation_id (path method : pyval) : result string :=
  clean_path <- Re.sub_params path ;;
  let parts := filter nonempty (str_split "/" clean_path) in
  method_lower <- lower method ;;
  prefix <- verb_prefix path method_lower ;;
  match parts with
  | _ :: _ => Ok (prefix ^^ str_join "" (map str_capitalize parts))
  | [] => Ok (prefix ^^ "Root")
  end.

(** *** Input schema synthesizer *)

Definition empty_schema : pyval :=
  PDict [(PStr "type", PStr "object");
         (PStr "properties", PDict []);
         (PStr "required", PList [])].

(** The body of the two loops over [parameters]: the first runs it with
    [location = 'path'], the second with ['query']. *)
Definition add_parameter (location : string) (param : pyval) (schema : pyval)
  : result pyval :=
  param_in <- get param "in" PNone ;;
  if eq_str param_in location then
    param_schema <- get param "schema" (PDict [(PStr "type", PStr "string")]) ;;
    param_type <- get param_schema "type" (PStr "string") ;;
    description <- get param "description" (PStr "") ;;
    name <- getitem param "name" ;;
    schema <- setitem_in schema "properties" name
                (PDict [(PStr "type", param_type);
                        (PStr "description", description)]) ;;
    required <- get param "required" (PBool false) ;;
    if truthy required then
      name <- getitem param "name" ;;
      append_in schema "required" name
    else Ok schema
  else Ok schema.

(** The [$ref] step: one hop into [components.schemas]. *)
Definition resolve_body_ref (self : t) (body_schema : pyval) : result pyval :=
  has_ref <- contains body_schema (PStr "$ref") ;;
  if (has_ref : bool) then
    ref_path <- getitem body_schema "$ref" ;;
    has_prefix <- startswith ref_path "#/components/schemas/" ;;
    if (has_prefix : bool) then
      pieces <- split ref_path "/" ;;
      let schema_name := last pieces "" in
      schemas <- get (components self) "schemas" (PDict []) ;;
      get schemas schema_name (PDict [])
    else Ok body_schema
  else Ok body_schema.

(** The body of the loop over the request body's [properties.items()]. *)
Definition add_body_property (prop : pyval * pyval) (schema : pyval)
  : result pyval :=
  let (prop_name, prop_def) := prop in
  prop_type <- get prop_def "type" (PStr "string") ;;
  description <- get prop_def "description" (PStr "") ;;
  enum <- get prop_def "enum" PNone ;;
  minimum <- get prop_def "minimum" PNone ;;
  maximum <- get prop_def "maximum" PNone ;;
  schema <- setitem_in schema "properties" prop_name
              (PDict [(PStr "type", prop_type);
                      (PStr "description", description);
                      (PStr "enum", enum);
                      (PStr "minimum", minimum);
                      (PStr "maximum", maximum)]) ;;
  (* Remove None values *)
  entry <- getitem_in schema "properties" prop_name ;;
  fields <- items entry ;;
  setitem_in schema "properties" prop_name
    (PDict (filter (fun kv => not_none (snd kv)) fields)).

Definition add_request_body (self : t) (request_body : pyval) (schema : pyval)
  : result pyval :=
  content <- get request_body "content" (PDict []) ;;
  json_content <- get content "application/json" (PDict []) ;;
  body_schema <- get json_content "schema" (PDict []) ;;
  body_schema <- resolve_body_ref self body_schema ;;
  body_type <- get body_schema "type" PNone ;;
  if eq_str body_type "object" then
    properties <- get body_schema "properties" (PDict []) ;;
    required <- get body_schema "required" (PList []) ;;
    props <- items properties ;;
    schema <- for_each props schema add_body_property ;;
    names <- iter required ;;
    extend_in schema "required" names
  else Ok schema.

Definition _generate_input_schema (self : t) (operation : pyval) : result pyval :=
  let schema := empty_schema in
  parameters <- get operation "parameters" (PList []) ;;
  params <- iter parameters ;;
  (* Add path parameters *)
  schema <- for_each params schema (add_parameter "path") ;;
  (* Add query parameters *)
  schema <- for_each params schema (add_parameter "query") ;;
  (* Add request body properties *)
  request_body <- get operation "requestBody" PNone ;;
  if truthy request_body
  then add_request_body self request_body schema
  else Ok schema.

(** *** Tool descriptor builder *)

Definition _generate_tool (self : t) (path method operation : pyval)
  : result pyval :=
  operation_id <- get operation "operationId" PNone ;;
  operation_id <-
    (if negb (truthy operation_id)
     then name <- _generate_operation_id path method ;; Ok (PStr name)
     else Ok operation_id) ;;
  summary <- get operation "summary" (PStr "") ;;
  description <- get operation "description" summary ;;
  input_schema <- _generate_input_schema self operation ;;
  responses <- get operation "responses" (PDict []) ;;
  request_body <- get operation "requestBody" PNone ;;
  Ok (PDict [(PStr "name", operation_id);
             (PStr "method", method);
             (PStr "path", path);
             (PStr "summary", summary);
             (PStr "description", description);
             (PStr "input_schema", input_schema);
             (PStr "responses", responses);
             (PStr "request_body", request_body)]).

Definition tool_methods : list string := ["get"; "post"; "put"; "delete"; "patch"].

(** The body of the inner loop of [generate_tools]. *)
Definition add_operation (self : t) (path : pyval) (entry : pyval * pyval)
    (tools : list pyval) : result (list pyval) :=
  let (method, operation) := entry in
  method_lower <- lower method ;;
  if in_strs method_lower tool_methods then
    method_upper <- upper method ;;
    tool <- _generate_tool self path (PStr method_upper) operation ;;
    if truthy tool then Ok (tools ++ [tool]) else Ok tools
  else Ok tools.

(** The body of the outer loop of [generate_tools]. *)
Definition add_path (self : t) (entry : pyval * pyval) (tools : list pyval)
  : result (list pyval) :=
  let (path, path_item) := entry in
  operations <- items path_item ;;
  for_each operations tools (add_operation self path).

Definition generate_tools (self : t) : result (list pyval) :=
  path_items <- items (paths self) ;;
  for_each path_items [] (add_path self).

(** *** Artifact renderer: the fragments the claims are about *)

Definition get_security_info (self : t) : result pyval :=
  security_schemes <- get (components self) "securitySchemes" (PDict []) ;;
  Ok (PDict [(PStr "schemes", security_schemes);
             (PStr "requirements", security self)]).

Definition auth_header_line (header_name : pyval) : string :=
  "'" ^^ str header_name ^^ "': API_KEY,".

(** The loop of [_generate_auth_headers]: it returns at the first scheme
    of type ['apiKey'], and falls through to [""]. *)
Fixpoint auth_headers_loop (schemes : dict) : result string :=
  match schemes with
  | [] => Ok ""
  | (scheme_name, scheme) :: rest =>
      scheme_type <- get scheme "type" PNone ;;
      if eq_str scheme_type "apiKey" then
        header_name <- get scheme "name" (PStr "X-API-Key") ;;
        Ok (auth_header_line header_name)
      else auth_headers_loop rest
  end.

Definition _generate_auth_headers (security_info : pyval) : result string :=
  schemes <- get security_info "schemes" (PDict []) ;;
  entries <- items schemes ;;
  auth_headers_loop entries.

Definition body_methods : list string := ["POST"; "PUT"; "PATCH"].

Definition data_binding : string := "        data: args,".

Definition _generate_request_config (tool : pyval) : result string :=
  request_body <- get tool "request_body" PNone ;;
  config_parts <-
    (if truthy request_body then
       method <- getitem tool "method" ;;
       method_upper <- upper method ;;
       if in_strs method_upper body_methods
       then Ok [data_binding]
       else Ok []
     else Ok []) ;;
  match config_parts with
  | _ :: _ => Ok (newline ^^ str_join newline config_parts)
  | [] => Ok ""
  end.

(** *** Artifact renderer: base URL, server name, dispatch and routines *)

(** [get_base_url].  The test [if self.servers] and the subscript
    [self.servers[0]] are read together: a list that is true has a first
    item; a dictionary that is true is looked up under the key [0]; the
    first item of a string is a string, which has no ['url']; a number or
    [True] cannot be subscripted. *)
Definition get_base_url (self : t) : result pyval :=
  match servers self with
  | PList (first :: _) => getitem first "url"
  | PDict (entry :: rest) =>
      match lookup (entry :: rest) (PInt 0) with
      | Some first => getitem first "url"
      | None => Raise KeyError
      end
  | PStr (String c _) => getitem (PStr (String c EmptyString)) "url"
  | PInt n => if Z.eqb n 0 then Ok (PStr "") else Raise TypeError
  | PBool true => Raise TypeError
  | _ => Ok (PStr "")
  end.

(** [re.sub(r'[^a-zA-Z0-9]', ' ', text)] on a string. *)
Definition blank_symbols (s : string) : string :=
  map_string (fun c => if is_alnum c then c else " "%char) s.

Definition _to_pascal_case (text : pyval) : result string :=
  match text with
  | PStr s => Ok (str_join "" (map str_capitalize (str_words (blank_symbols s))))
  | _ => Raise TypeError
  end.

(** One [case] of the dispatch block. *)
Definition handler_case (name : pyval) : string :=
  "        case '" ^^ str name ^^ "':" ^^ newline ^^
  "          return await this." ^^ str name ^^ "(request.params.arguments);".

Definition _generate_tool_handlers (tools : list pyval) : result string :=
  cases <-
    for_each tools []
      (fun (tool : pyval) (cases : list string) =>
         name <- getitem tool "name" ;;
         Ok (cases ++ [handler_case name])) ;;
  Ok (str_join newline cases).

(** The text of one invocation routine. *)
Definition routine (name : pyval) (method_lower : string) (path : pyval)
    (request_config : string) : string :=
  str_join newline
    ["  private async " ^^ str name ^^ "(args: any) {";
     "    try {";
     "      const response = await this.axiosInstance({";
     "        method: '" ^^ method_lower ^^ "',";
     "        url: '" ^^ str path ^^ "'," ^^ request_config;
     "      });";
     "";
     "      return {";
     "        content: [";
     "          {";
     "            type: 'text',";
     "            text: JSON.stringify(response.data, null, 2),";
     "          },";
     "        ],";
     "      };";
     "    } catch (error) {";
     "      if (axios.isAxiosError(error)) {";
     "        return {";
     "          content: [";
     "            {";
     "              type: 'text',";
     "              text: `API error: ${error.response?.data?.error || error.response?.data?.message || error.message}`,";
     "            },";
     "          ],";
     "          isError: true,";
     "        };";
     "      }";
     "      throw error;";
     "    }";
     "  }"].

(** The body of the loop of [_generate_tool_methods]. *)
Definition add_routine (tool : pyval) (methods : list string)
  : result (list string) :=
  request_config <- _generate_request_config tool ;;
  name <- getitem tool "name" ;;
  method <- getitem tool "method" ;;
  method_lower <- lower method ;;
  path <- getitem tool "path" ;;
  Ok (methods ++ [routine name method_lower path request_config]).

Definition _generate_tool_methods (tools : list pyval) : result string :=
  methods <- for_each tools [] add_routine ;;
  Ok (str_join (newline ^^ newline) methods).

End OpenAPIToMCP.

(* ================================================================== *)
(** ** The document as the specification reads it

    The specification describes the generator over a typed document
    model (Operation, SchemaNode, ...).  The definitions of this module
    read those parts out of the raw document and restate, in the
    specification's words, what each component is to produce; the
    theorems further down compare them with the functions of the class. *)

Module Spec.
Import Py.

Definition is_dict (v : pyval) : bool :=
  match v with PDict _ => true | _ => false end.

Definition is_list (v : pyval) : bool :=
  match v with PList _ => true | _ => false end.

Definition is_str (v : pyval) : bool :=
  match v with PStr _ => true | _ => false end.

(** A field of a JSON object, or [default] when it is absent. *)
Definition field (d : pyval) (k : string) (default : pyval) : pyval :=
  match d with
  | PDict m =>
      match lookup m (PStr k) with
      | Some v => v
      | None => default
      end
  | _ => default
  end.

Definition has_field (d : pyval) (k : string) : bool :=
  match d with
  | PDict m => match lookup m (PStr k) with Some _ => true | None => false end
  | _ => false
  end.

Definition entries (d : pyval) : dict :=
  match d with PDict m => m | _ => [] end.

Definition elements (v : pyval) : list pyval :=
  match v with PList l => l | _ => [] end.

(** The input schema [{type: "object", properties, required}]. *)
Definition input_schema (properties : dict) (required : list pyval) : pyval :=
  PDict [(PStr "type", PStr "object");
         (PStr "properties", PDict properties);
         (PStr "required", PList required)].

(** A schema of the three keys. *)
Definition shaped (schema : pyval) : Prop :=
  exists (P : dict) (R : list pyval), schema = input_schema P R.

(** *** Parameters (4.3, steps 1 and 2) *)

Definition parameters (operation : pyval) : list pyval :=
  elements (field operation "parameters" (PList [])).

Definition in_location (location : string) (param : pyval) : bool :=
  eq_str (field param "in" PNone) location.

Definition param_name (param : pyval) : pyval := field param "name" PNone.

(** "a property keyed by its name, typed from its own schema's declared
    primitive type (default string if schema omitted), carrying its
    description" *)
Definition param_property (param : pyval) : pyval :=
  PDict [(PStr "type",
          field (field param "schema" (PDict [(PStr "type", PStr "string")]))
                "type" (PStr "string"));
         (PStr "description", field param "description" (PStr ""))].

Definition marked_required (param : pyval) : bool :=
  truthy (field param "required" (PBool false)).

(** What one parameter adds in the step for [location]. *)
Definition param_step (location : string) (param : pyval) : dict :=
  if in_location location param
  then [(param_name param, param_property param)]
  else [].

Definition required_step (location : string) (param : pyval) : list pyval :=
  if in_location location param && marked_required param
  then [param_name param]
  else [].

Definition param_properties (location : string) (operation : pyval) : dict :=
  map (fun p => (param_name p, param_property p))
      (filter (in_location location) (parameters operation)).

Definition param_required (location : string) (operation : pyval) : list pyval :=
  map param_name
      (filter (fun p => in_location location p && marked_required p)
              (parameters operation)).

(** *** Request body (4.3, step 3) *)

Definition ref_prefix : string := "#/components/schemas/".

(** The schema under [requestBody.content["application/json"].schema]. *)
Definition declared_body_schema (request_body : pyval) : pyval :=
  field (field (field request_body "content" (PDict []))
               "application/json" (PDict []))
        "schema" (PDict []).

Definition registry (self : OpenAPIToMCP.t) : pyval :=
  field (OpenAPIToMCP.components self) "schemas" (PDict []).

(** The name a pointer refers to: its text after the last slash. *)
Definition ref_name (ref_path : string) : string :=
  last (str_split "/" ref_path) "".

(** "If the body schema is a [$ref], resolve it one hop into the component
    registry"; an entry that is not there resolves to the empty schema. *)
Definition resolved (self : OpenAPIToMCP.t) (body_schema : pyval) : pyval :=
  match field body_schema "$ref" PNone with
  | PStr ref_path =>
      if str_startswith ref_path ref_prefix
      then field (registry self) (ref_name ref_path) (PDict [])
      else body_schema
  | _ => body_schema
  end.

(** The schema whose properties the body contributes: the resolved JSON
    body schema, when the operation has a request body. *)
Definition body_schema (self : OpenAPIToMCP.t) (operation : pyval) : pyval :=
  let request_body := field operation "requestBody" PNone in
  if truthy request_body
  then resolved self (declared_body_schema request_body)
  else PDict [].

Definition is_object (schema : pyval) : bool :=
  eq_str (field schema "type" PNone) "object".

(** The five fields copied from a body property, before the ones that are
    [None] are dropped. *)
Definition body_fields (prop_def : pyval) : dict :=
  [(PStr "type", field prop_def "type" (PStr "string"));
   (PStr "description", field prop_def "description" (PStr ""));
   (PStr "enum", field prop_def "enum" PNone);
   (PStr "minimum", field prop_def "minimum" PNone);
   (PStr "maximum", field prop_def "maximum" PNone)].

Definition body_property (prop_def : pyval) : pyval :=
  PDict (filter (fun kv => not_none (snd kv)) (body_fields prop_def)).

(** "If the resolved body schema's type is object, iterate its
    properties; for each, build a property entry"; a schema of another
    type contributes nothing. *)
Definition object_properties (schema : pyval) : dict :=
  if is_object schema
  then map (fun kv => (fst kv, body_property (snd kv)))
           (entries (field schema "properties" (PDict [])))
  else [].

(** "The body schema's own required array", whole and in its order. *)
Definition object_required (schema : pyval) : list pyval :=
  if is_object schema
  then elements (field schema "required" (PList []))
  else [].

Definition body_properties (self : OpenAPIToMCP.t) (operation : pyval) : dict :=
  object_properties (body_schema self operation).

Definition body_required (self : OpenAPIToMCP.t) (operation : pyval) : list pyval :=
  object_required (body_schema self operation).

(** What the entry of a body property holds under [name]: the source
    field, or [default] when the source has none, unless that is
    [None]. *)
Definition copied (prop_def : pyval) (name : string) (default : pyval)
  : option pyval :=
  let v := field prop_def name default in
  if not_none v then Some v else None.

(** No two entries under keys that compare equal: what holds of every
    Python dictionary. *)
Fixpoint distinct_keys (m : dict) : bool :=
  match m with
  | [] => true
  | (k, _) :: rest =>
      negb (existsb (fun kv => key_eq (fst kv) k) rest) && distinct_keys rest
  end.

(** The segments of a path as written, parameters included. *)
Definition raw_segments (path : string) : list string :=
  filter OpenAPIToMCP.nonempty (str_split "/" path).

Fixpoint slashes (n : nat) : string :=
  match n with
  | O => EmptyString
  | S k => String "/" (slashes k)
  end.

(** *** The merge *)

(** Writing the entries [steps] into the dictionary [m], first to last. *)
Definition write_all (m : dict) (steps : dict) : dict :=
  fold_left (fun acc kv => update acc (fst kv) (snd kv)) steps m.

(** What a reader of key [k] sees after the write [kv], having seen
    [acc] before it. *)
Definition write_step (k : pyval) (acc : option pyval) (kv : pyval * pyval)
  : option pyval :=
  if key_eq (fst kv) k then Some (snd kv) else acc.

(** The value the last entry of [steps] with key [k] carries. *)
Definition last_write (steps : dict) (k : pyval) : option pyval :=
  fold_left (write_step k) steps None.

(** "Merge order and precedence": path parameters, then query parameters,
    then the request body. *)
Definition merge_steps (self : OpenAPIToMCP.t) (operation : pyval) : dict :=
  param_properties "path" operation ++
  param_properties "query" operation ++
  body_properties self operation.

Definition merged_required (self : OpenAPIToMCP.t) (operation : pyval) : list pyval :=
  param_required "path" operation ++
  param_required "query" operation ++
  body_required self operation.

Definition synthesized (self : OpenAPIToMCP.t) (operation : pyval) : pyval :=
  input_schema (write_all [] (merge_steps self operation))
               (merged_required self operation).

(** The schema the parameters alone give. *)
Definition parameters_only (operation : pyval) : pyval :=
  input_schema
    (write_all [] (param_properties "path" operation ++
                   param_properties "query" operation))
    (param_required "path" operation ++ param_required "query" operation).

(** *** Well-formed operations

    The shape of an Operation of the data model: the conditions under
    which no step of the synthesizer meets a value of the wrong kind. *)

Definition named (param : pyval) : bool :=
  has_field param "name" && hashable (param_name param).

Definition wf_param (param : pyval) : bool :=
  is_dict param &&
  (if in_location "path" param || in_location "query" param
   then is_dict (field param "schema" (PDict [(PStr "type", PStr "string")]))
        && named param
   else true).

Definition wf_parameters (operation : pyval) : bool :=
  is_list (field operation "parameters" (PList [])) &&
  forallb wf_param (parameters operation).

(** A schema node whose [$ref], if any, is a string, and can be looked
    up when it points into the registry. *)
Definition wf_ref (self : OpenAPIToMCP.t) (body_schema : pyval) : bool :=
  is_dict body_schema &&
  (if has_field body_schema "$ref" then
     match field body_schema "$ref" PNone with
     | PStr ref_path =>
         if str_startswith ref_path ref_prefix
         then is_dict (OpenAPIToMCP.components self) && is_dict (registry self)
         else true
     | _ => false
     end
   else true).

Definition wf_property (kv : pyval * pyval) : bool :=
  hashable (fst kv) && is_dict (snd kv).

Definition wf_object_schema (schema : pyval) : bool :=
  is_dict schema &&
  (if is_object schema then
     is_dict (field schema "properties" (PDict [])) &&
     forallb wf_property (entries (field schema "properties" (PDict []))) &&
     is_list (field schema "required" (PList []))
   else true).

Definition wf_request_body (self : OpenAPIToMCP.t) (operation : pyval) : bool :=
  let request_body := field operation "requestBody" PNone in
  if truthy request_body then
    is_dict request_body &&
    is_dict (field request_body "content" (PDict [])) &&
    is_dict (field (field request_body "content" (PDict []))
                   "application/json" (PDict [])) &&
    wf_ref self (declared_body_schema request_body) &&
    wf_object_schema (resolved self (declared_body_schema request_body))
  else true.

Definition wf_operation (self : OpenAPIToMCP.t) (operation : pyval) : bool :=
  is_dict operation && wf_parameters operation && wf_request_body self operation.



(** *** Operation names (4.2) *)

(** The path segments that remain "after stripping parameters". *)
Definition segments (path : string) : list string :=
  filter OpenAPIToMCP.nonempty (str_split "/" (Re.strip_params path)).

(** "choose a verb prefix by method" *)
Definition verb (path method : string) : string :=
  let m := str_lower method in
  if String.eqb m "get" then "get"
  else if String.eqb m "post" then
    (if str_contains (str_lower path) "create" then "create" else "post")
  else if String.eqb m "put" then "update"
  else if String.eqb m "delete" then "delete"
  else m.


(** The name with the segments capitalized by [capitalize]. *)
Definition synthesized_name (capitalize : string -> string)
    (path method : string) : string :=
  match segments path with
  | [] => verb path method ^^ "Root"
  | parts => verb path method ^^ str_join "" (map capitalize parts)
  end.



Fixpoint no_char (c : ascii) (s : string) : bool :=
  match s with
  | EmptyString => true
  | String c' rest => negb (Ascii.eqb c' c) && no_char c rest
  end.

(** A [{param}] segment: braces around a name that is not empty and holds
    no closing brace. *)
Definition param_segment (segment : string) : Prop :=
  exists name : string,
    segment = "{" ^^ name ^^ "}" /\ name <> "" /\ no_char "}" name = true.

(** A piece between two slashes of a path made of parameters only. *)
Definition empty_or_param (piece : string) : Prop :=
  piece = "" \/ param_segment piece.

(** *** Tool descriptors (4.4) *)

Definition operation_name (path method : string) (operation : pyval) : pyval :=
  let declared := field operation "operationId" PNone in
  if truthy declared then declared
  else PStr (synthesized_name str_capitalize path method).

Definition tool_descriptor (self : OpenAPIToMCP.t) (path method : string)
    (operation : pyval) : pyval :=
  PDict [(PStr "name", operation_name path method operation);
         (PStr "method", PStr method);
         (PStr "path", PStr path);
         (PStr "summary", field operation "summary" (PStr ""));
         (PStr "description",
          field operation "description" (field operation "summary" (PStr "")));
         (PStr "input_schema", synthesized self operation);
         (PStr "responses", field operation "responses" (PDict []));
         (PStr "request_body", field operation "requestBody" PNone)].

(** Every (path, method, operation) of the [paths] mapping, in document
    order. *)
Definition operations (self : OpenAPIToMCP.t) : list (pyval * pyval * pyval) :=
  flat_map (fun path_entry =>
              map (fun op_entry => (fst path_entry, fst op_entry, snd op_entry))
                  (entries (snd path_entry)))
           (entries (OpenAPIToMCP.paths self)).

Definition text (v : pyval) : string :=
  match v with PStr s => s | _ => "" end.

(** The methods [generate_tools] lets through. *)
Definition tool_method (method : pyval) : bool :=
  in_strs (str_lower (text method)) OpenAPIToMCP.tool_methods.

Definition selected (op : pyval * pyval * pyval) : bool :=
  tool_method (snd (fst op)).

Definition descriptor_of (self : OpenAPIToMCP.t) (op : pyval * pyval * pyval)
  : pyval :=
  tool_descriptor self (text (fst (fst op))) (str_upper (text (snd (fst op))))
                  (snd op).

Definition wf_tool_operation (self : OpenAPIToMCP.t)
    (op : pyval * pyval * pyval) : bool :=
  is_str (fst (fst op)) && wf_operation self (snd op).

(** A method key is a string, and an operation the generator lets through
    is well formed. *)
Definition wf_entry (self : OpenAPIToMCP.t) (op : pyval * pyval * pyval) : bool :=
  is_str (snd (fst op)) &&
  (if selected op then wf_tool_operation self op else true).

Definition wf_paths (self : OpenAPIToMCP.t) : bool :=
  is_dict (OpenAPIToMCP.paths self) &&
  forallb (fun path_entry => is_dict (snd path_entry))
          (entries (OpenAPIToMCP.paths self)) &&
  forallb (wf_entry self) (operations self).

(** *** Interfaces (4.5) *)

(** A schema node the type resolver can read: [enum], when given, is a
    list, and so down the [items]. *)
Fixpoint typed_schema (schema : pyval) : bool :=
  match schema with
  | PDict m =>
      match lookup m (PStr "enum") with
      | None => true
      | Some v => is_list v
      end &&
      (fix items_typed (l : dict) : bool :=
         match l with
         | [] => true
         | (k, v) :: rest =>
             if key_eq k (PStr "items") then typed_schema v
             else items_typed rest
         end) m
  | _ => false
  end.

(** The output type expression of a schema node. *)
Definition type_expression (schema : pyval) : string :=
  match OpenAPIToMCP._get_typescript_type schema with
  | Ok ty => ty
  | Raise _ => "any"
  end.

(** The mark after a field's name: none for a required field, [?] for an
    optional one. *)
Definition optional_mark (required : list pyval) (prop_name : pyval) : string :=
  if existsb (key_eq prop_name) required then "" else "?".

Definition description_lines (prop_def : pyval) : list string :=
  let description := field prop_def "description" (PStr "") in
  if truthy description
  then [OpenAPIToMCP.description_line description]
  else [].

(** "one field line per property, each annotated optional or required
    ..., with a description comment line preceding it when a description
    exists" *)
Definition property_lines (required : list pyval) (prop : pyval * pyval)
  : list string :=
  description_lines (snd prop) ++
  [OpenAPIToMCP.field_line (fst prop) (optional_mark required (fst prop))
                           (type_expression (snd prop))].

Definition interface_block (name schema : pyval) : list string :=
  OpenAPIToMCP.interface_header name ::
  flat_map (property_lines (elements (field schema "required" (PList []))))
           (entries (field schema "properties" (PDict []))) ++
  ["}"].

(** The text a schema adds to the rendered interfaces. *)
Definition rendered (name schema : pyval) : string :=
  if is_object schema
  then str_join newline (interface_block name schema)
  else "".

Definition wf_interface_schema (schema : pyval) : bool :=
  is_dict schema &&
  (if is_object schema then
     is_dict (field schema "properties" (PDict [])) &&
     forallb (fun kv => typed_schema (snd kv))
             (entries (field schema "properties" (PDict []))) &&
     is_list (field schema "required" (PList []))
   else true).

Definition wf_registry (self : OpenAPIToMCP.t) : bool :=
  is_dict (OpenAPIToMCP.components self) &&
  is_dict (registry self) &&
  forallb (fun kv => wf_interface_schema (snd kv)) (entries (registry self)).

(** *** Authentication (4.6) *)

Definition security_schemes (self : OpenAPIToMCP.t) : pyval :=
  field (OpenAPIToMCP.components self) "securitySchemes" (PDict []).

Definition is_api_key (scheme : pyval) : bool :=
  eq_str (field scheme "type" PNone) "apiKey".

(** "first match in iteration order" *)
Definition first_api_key (schemes : dict) : option (pyval * pyval) :=
  find (fun kv => is_api_key (snd kv)) schemes.

Definition wf_security (self : OpenAPIToMCP.t) : bool :=
  is_dict (OpenAPIToMCP.components self) &&
  is_dict (security_schemes self) &&
  forallb (fun kv => is_dict (snd kv)) (entries (security_schemes self)).

(** *** Further notions *)

(** A parameter the synthesizer reads: one in the path or in the query. *)
Definition located (param : pyval) : bool :=
  in_location "path" param || in_location "query" param.

(** The properties of the resolved body schema, when it is an object. *)
Definition body_entries (self : OpenAPIToMCP.t) (operation : pyval) : dict :=
  if is_object (body_schema self operation)
  then entries (field (body_schema self operation) "properties" (PDict []))
  else [].

Fixpoint all_chars (p : ascii -> bool) (s : string) : bool :=
  match s with
  | EmptyString => true
  | String c rest => p c && all_chars p rest
  end.

(** The schema of an array of [items]. *)
Definition array_of (items : pyval) : pyval :=
  PDict [(PStr "type", PStr "array"); (PStr "items", items)].

Fixpoint nested_array (depth : nat) (base : pyval) : pyval :=
  match depth with
  | O => base
  | S d => array_of (nested_array d base)
  end.

Fixpoint brackets (depth : nat) : string :=
  match depth with
  | O => EmptyString
  | S d => brackets d ^^ "[]"
  end.

Definition quoted (s : string) : string := dquote ^^ s ^^ dquote.

(** The name under which the operation [op] is rendered. *)
Definition rendered_name (op : pyval * pyval * pyval) : pyval :=
  operation_name (text (fst (fst op))) (str_upper (text (snd (fst op))))
                 (snd op).

(** The request configuration of the descriptor of an operation. *)
Definition request_config (method : string) (operation : pyval) : string :=
  if truthy (field operation "requestBody" PNone) &&
     in_strs (str_upper method) OpenAPIToMCP.body_methods
  then newline ^^ OpenAPIToMCP.data_binding
  else "".

(** *** ASCII text and the pieces of a path *)

Definition is_ascii (c : ascii) : bool := Nat.ltb (nat_of_ascii c) 128.

(** Text on which the case mappings of the model are those of Python. *)
Definition ascii_text (s : string) : bool := all_chars is_ascii s.



(** The path templates of the operations the generator lets through are
    ASCII text. *)
Definition ascii_paths (self : OpenAPIToMCP.t) : bool :=
  forallb (fun op => ascii_text (text (fst (fst op))))
          (filter selected (operations self)).

Definition five_fields : list string :=
  ["type"; "description"; "enum"; "minimum"; "maximum"].

End Spec.

(* ================================================================== *)
(** ** Sample documents *)

Module Examples.
Import Py.

(** A JSON object literal. *)
Definition obj (fields : list (string * pyval)) : pyval :=
  PDict (map (fun kv => (PStr (fst kv), snd kv)) fields).

Definition json_body (schema : pyval) : pyval :=
  obj [("content", obj [("application/json", obj [("schema", schema)])])].

Definition user_schema : pyval :=
  obj [("type", PStr "object");
       ("required", PList [PStr "id"]);
       ("properties",
        obj [("id", obj [("type", PStr "integer"); ("minimum", PInt 0)]);
             ("nick", obj [])])].

(** [PUT /users/{id}]: [id] is a required path parameter, a query
    parameter and a required body field. *)
Definition put_user : pyval :=
  obj [("parameters",
        PList [obj [("in", PStr "path"); ("name", PStr "id");
                    ("required", PBool true);
                    ("schema", obj [("type", PStr "string")])];
               obj [("in", PStr "query"); ("name", PStr "id");
                    ("description", PStr "alias")];
               obj [("in", PStr "header"); ("name", PStr "X-Trace")]]);
       ("requestBody", json_body (obj [("$ref", PStr "#/components/schemas/User")]))].




Definition document : pyval :=
  obj [("info", obj [("title", PStr "Users"); ("version", PStr "1.0.0")]);
       ("paths",
        obj [("/users/{id}",
              obj [("put", put_user);
                   ("head", obj []);
                   ("get", obj [("operationId", PStr "fetchUser")])]);
             ("/userAccounts", obj [("get", obj [])])]);
       ("components",
        obj [("schemas",
              obj [("User", user_schema);
                   ("Kind", obj [("type", PStr "string")])]);
             ("securitySchemes",
              obj [("basic", obj [("type", PStr "http")]);
                   ("key", obj [("type", PStr "apiKey"); ("in", PStr "header");
                                ("name", PStr "X-Api-Key")]);
                   ("other", obj [("type", PStr "apiKey");
                                  ("name", PStr "X-Other")])])])].

(** The generator [OpenAPIToMCP(document)]. *)
Definition generator : OpenAPIToMCP.t :=
  OpenAPIToMCP.mk
    document
    (Spec.field document "info" (PDict []))
    (Spec.field document "servers" (PList []))
    (Spec.field document "paths" (PDict []))
    (Spec.field document "components" (PDict []))
    (Spec.field document "security" (PList [])).

(** A document with one operation under a method outside the five. *)
Definition head_only : pyval :=
  obj [("paths", obj [("/ping", obj [("head", obj [])])])].

Definition head_only_generator : OpenAPIToMCP.t :=
  OpenAPIToMCP.mk head_only (PDict []) (PList [])
    (Spec.field head_only "paths" (PDict [])) (PDict []) (PList []).

End Examples.

(* ================================================================== *)
(** ** Facts about the builtins *)

Section KeyFacts.
Import Py.

Lemma key_eq_refl (k : pyval) : hashable k = true -> key_eq k k = true.
Proof.
  destruct k; simpl; intros H; try discriminate; auto.
  - apply Bool.eqb_reflx.
  - apply Z.eqb_refl.
  - apply String.eqb_refl.
Qed.

Lemma b2z_inj (x y : bool) : Z.b2z x = Z.b2z y -> x = y.
Proof. destruct x, y; simpl; intros H; congruence. Qed.

Lemma key_eq_sym (a b : pyval) : key_eq a b = key_eq b a.
Proof.
  destruct a, b; simpl; auto.
  - destruct b, b0; reflexivity.
  - apply Z.eqb_sym.
  - apply Z.eqb_sym.
  - apply Z.eqb_sym.
  - apply String.eqb_sym.
Qed.

Lemma key_eq_trans (a b c : pyval) :
  key_eq a b = true -> key_eq b c = true -> key_eq a c = true.
Proof.
  destruct a, b, c; simpl; try discriminate; auto;
    rewrite ?Bool.eqb_true_iff, ?Z.eqb_eq, ?String.eqb_eq;
    intros H1 H2; subst; auto; try congruence.
  - apply b2z_inj; congruence.
Qed.

(** Two keys that compare equal find the same entries. *)
Lemma key_eq_left (a b c : pyval) :
  key_eq a b = true -> key_eq a c = key_eq b c.
Proof.
  intros Hab.
  destruct (key_eq b c) eqn:Hbc.
  - eapply key_eq_trans; eauto.
  - destruct (key_eq a c) eqn:Hac; auto.
    rewrite key_eq_sym in Hab.
    rewrite <- Hbc. symmetry. eapply key_eq_trans; eauto.
Qed.

Lemma lookup_update (m : dict) (k v k2 : pyval) :
  lookup (update m k v) k2 = if key_eq k k2 then Some v else lookup m k2.
Proof.
  induction m as [|[k' v'] rest IH]; simpl.
  - reflexivity.
  - destruct (key_eq k' k) eqn:E; simpl.
    + rewrite (key_eq_left k' k k2 E).
      destruct (key_eq k k2); reflexivity.
    + rewrite IH.
      destruct (key_eq k' k2) eqn:E2; auto.
      destruct (key_eq k k2) eqn:E3; auto.
      rewrite key_eq_sym in E3.
      rewrite (key_eq_trans k' k2 k E2 E3) in E. discriminate.
Qed.

Lemma lookup_update_same (m : dict) (k v : pyval) :
  hashable k = true -> lookup (update m k v) k = Some v.
Proof.
  intros Hk. rewrite lookup_update, key_eq_refl by assumption. reflexivity.
Qed.

(** A second store under the same key replaces the first. *)
Lemma update_update (m : dict) (k v w : pyval) :
  hashable k = true -> update (update m k v) k w = update m k w.
Proof.
  intros Hk. induction m as [|[k' v'] rest IH]; simpl.
  - rewrite key_eq_refl by assumption. reflexivity.
  - destruct (key_eq k' k) eqn:E; simpl; rewrite E; [reflexivity|].
    rewrite IH. reflexivity.
Qed.

End KeyFacts.

(* ================================================================== *)
(** ** Construction *)

Section Construction.
Import Py OpenAPIToMCP Spec.

(** [OpenAPIToMCP(spec)] reads the five parts of the document, each with
    its default. *)
Lemma init_spec (openapi_spec : pyval) :
  is_dict openapi_spec = true ->
  __init__ openapi_spec =
  Ok (mk openapi_spec
         (field openapi_spec "info" (PDict []))
         (field openapi_spec "servers" (PList []))
         (field openapi_spec "paths" (PDict []))
         (field openapi_spec "components" (PDict []))
         (field openapi_spec "security" (PList []))).
Proof.
  destruct openapi_spec as [| | | | |m]; try discriminate. intros _.
  unfold __init__, get, field.
  destruct (lookup m (PStr "info")), (lookup m (PStr "servers")),
    (lookup m (PStr "paths")), (lookup m (PStr "components")),
    (lookup m (PStr "security")); reflexivity.
Qed.

Example init_document : __init__ Examples.document = Ok Examples.generator.
Proof. reflexivity. Qed.

Example init_head_only :
  __init__ Examples.head_only = Ok Examples.head_only_generator.
Proof. reflexivity. Qed.

End Construction.

(* ================================================================== *)
(** ** The input schema synthesizer meets its specification *)

Section InputSchemaFacts.
Import Py OpenAPIToMCP Spec.

Lemma get_field (d : pyval) (k : string) (default : pyval) :
  is_dict d = true -> get d k default = Ok (field d k default).
Proof.
  destruct d; simpl; try discriminate. intros _.
  destruct (lookup m (PStr k)); reflexivity.
Qed.

Lemma getitem_field (d : pyval) (k : string) (default : pyval) :
  has_field d k = true -> getitem d k = Ok (field d k default).
Proof.
  destruct d; simpl; try discriminate.
  destruct (lookup m (PStr k)); [reflexivity | discriminate].
Qed.

Lemma items_entries (d : pyval) : is_dict d = true -> items d = Ok (entries d).
Proof. destruct d; simpl; try discriminate; reflexivity. Qed.

Lemma iter_elements (v : pyval) : is_list v = true -> iter v = Ok (elements v).
Proof. destruct v; simpl; try discriminate; reflexivity. Qed.

(** *** Stores into the schema under construction *)

Lemma setitem_in_properties (P : dict) (R : list pyval) (k v : pyval) :
  hashable k = true ->
  setitem_in (input_schema P R) "properties" k v = Ok (input_schema (update P k v) R).
Proof.
  intros Hk. unfold setitem_in, input_schema, setitem. simpl lookup.
  rewrite Hk. reflexivity.
Qed.

Lemma setitem_in_unhashable (P : dict) (R : list pyval) (k v : pyval) :
  hashable k = false ->
  setitem_in (input_schema P R) "properties" k v = Raise TypeError.
Proof.
  intros Hk. unfold setitem_in, input_schema, setitem. simpl lookup.
  rewrite Hk. reflexivity.
Qed.

Lemma getitem_in_properties (P : dict) (R : list pyval) (k : pyval) :
  getitem_in (input_schema P R) "properties" k =
  match lookup P k with Some v => Ok v | None => Raise KeyError end.
Proof. reflexivity. Qed.

Lemma extend_in_required (P : dict) (R vs : list pyval) :
  extend_in (input_schema P R) "required" vs = Ok (input_schema P (R ++ vs)).
Proof. reflexivity. Qed.

Lemma write_all_app (m a b : dict) :
  write_all m (a ++ b) = write_all (write_all m a) b.
Proof. unfold write_all. apply fold_left_app. Qed.

(** *** The loops over the parameters *)

Lemma wf_param_dict (param : pyval) : wf_param param = true -> is_dict param = true.
Proof. unfold wf_param. intros H. apply andb_prop in H. tauto. Qed.

Lemma wf_param_located (location : string) (param : pyval) :
  location = "path" \/ location = "query" ->
  wf_param param = true ->
  in_location location param = true ->
  is_dict (field param "schema" (PDict [(PStr "type", PStr "string")])) = true
  /\ has_field param "name" = true
  /\ hashable (param_name param) = true.
Proof.
  intros Hloc Hwf Hin. unfold wf_param, named in Hwf.
  apply andb_prop in Hwf. destruct Hwf as [_ Hwf].
  assert (Hor : in_location "path" param || in_location "query" param = true).
  { destruct Hloc; subst; rewrite Hin; auto using orb_true_r. }
  rewrite Hor in Hwf.
  apply andb_prop in Hwf. destruct Hwf as [Hs Hn].
  apply andb_prop in Hn. tauto.
Qed.

Lemma add_parameter_spec (location : string) (param : pyval)
    (P : dict) (R : list pyval) :
  location = "path" \/ location = "query" ->
  wf_param param = true ->
  add_parameter location param (input_schema P R) =
  Ok (input_schema (write_all P (param_step location param))
                   (R ++ required_step location param)).
Proof.
  intros Hloc Hwf.
  pose proof (wf_param_dict _ Hwf) as Hd.
  unfold add_parameter, param_step, required_step.
  rewrite (get_field param "in") by assumption. cbn [bind].
  fold (in_location location param).
  destruct (in_location location param) eqn:Hin.
  - destruct (wf_param_located location param Hloc Hwf Hin) as (Hs & Hn & Hh).
    rewrite (get_field param "schema") by assumption. cbn [bind].
    rewrite (get_field _ "type") by assumption. cbn [bind].
    rewrite (get_field param "description") by assumption. cbn [bind].
    rewrite (getitem_field param "name" PNone) by assumption. cbn [bind].
    fold (param_name param).
    rewrite setitem_in_properties by assumption. cbn [bind].
    rewrite (get_field param "required") by assumption. cbn [bind].
    fold (marked_required param).
    destruct (marked_required param); cbn [andb].
    + cbn [bind]. unfold append_in. rewrite extend_in_required. reflexivity.
    + rewrite app_nil_r. reflexivity.
  - cbn [andb]. rewrite app_nil_r. reflexivity.
Qed.

Lemma parameters_loop (location : string) (params : list pyval) :
  location = "path" \/ location = "query" ->
  forallb wf_param params = true ->
  forall (P : dict) (R : list pyval),
  for_each params (input_schema P R) (add_parameter location) =
  Ok (input_schema
        (write_all P (map (fun p => (param_name p, param_property p))
                          (filter (in_location location) params)))
        (R ++ map param_name
                (filter (fun p => in_location location p && marked_required p)
                        params))).
Proof.
  intros Hloc. induction params as [|p rest IH]; intros Hwf P R.
  - simpl. rewrite app_nil_r. reflexivity.
  - simpl in Hwf. apply andb_prop in Hwf. destruct Hwf as [Hp Hrest].
    cbn [for_each]. rewrite add_parameter_spec by assumption.
    rewrite IH by assumption.
    unfold param_step, required_step. cbn [filter].
    destruct (in_location location p); cbn [andb].
    + destruct (marked_required p); cbn [map write_all fold_left fst snd];
        rewrite <- ?app_assoc; reflexivity.
    + rewrite app_nil_r. reflexivity.
Qed.

(** *** The request body *)

Lemma add_body_property_spec (prop : pyval * pyval) (P : dict) (R : list pyval) :
  wf_property prop = true ->
  add_body_property prop (input_schema P R) =
  Ok (input_schema (update P (fst prop) (body_property (snd prop))) R).
Proof.
  destruct prop as [prop_name prop_def]. unfold wf_property. cbn [fst snd].
  intros H. apply andb_prop in H. destruct H as [Hh Hd].
  unfold add_body_property.
  rewrite !get_field by assumption. cbn [bind].
  rewrite setitem_in_properties by assumption. cbn [bind].
  rewrite getitem_in_properties, lookup_update_same by assumption. cbn [bind items].
  rewrite setitem_in_properties, update_update by assumption.
  reflexivity.
Qed.

Lemma body_properties_loop (props : dict) :
  forallb wf_property props = true ->
  forall (P : dict) (R : list pyval),
  for_each props (input_schema P R) add_body_property =
  Ok (input_schema
        (write_all P (map (fun kv => (fst kv, body_property (snd kv))) props)) R).
Proof.
  induction props as [|p rest IH]; intros Hwf P R.
  - reflexivity.
  - simpl in Hwf. apply andb_prop in Hwf. destruct Hwf as [Hp Hrest].
    cbn [for_each]. rewrite add_body_property_spec by assumption.
    rewrite IH by assumption. reflexivity.
Qed.

Lemma resolve_body_ref_spec (self : t) (schema : pyval) :
  wf_ref self schema = true ->
  resolve_body_ref self schema = Ok (resolved self schema).
Proof.
  unfold wf_ref, resolve_body_ref, resolved, registry.
  destruct schema as [| | | | |m]; try discriminate.
  cbn [is_dict andb contains hashable has_field field].
  destruct (lookup m (PStr "$ref")) as [ref|] eqn:Href; cbn [bind].
  - destruct ref; try discriminate.
    unfold getitem. rewrite Href. cbn [bind startswith].
    destruct (str_startswith s ref_prefix) eqn:Hpre; fold ref_prefix; rewrite Hpre.
    + intros H. apply andb_prop in H. destruct H as [Hc Hr].
      cbn [split bind]. rewrite (get_field _ "schemas") by assumption. cbn [bind].
      rewrite get_field by assumption. reflexivity.
    + reflexivity.
  - reflexivity.
Qed.

Lemma add_request_body_spec (self : t) (request_body : pyval)
    (P : dict) (R : list pyval) :
  is_dict request_body = true ->
  is_dict (field request_body "content" (PDict [])) = true ->
  is_dict (field (field request_body "content" (PDict []))
                 "application/json" (PDict [])) = true ->
  wf_ref self (declared_body_schema request_body) = true ->
  wf_object_schema (resolved self (declared_body_schema request_body)) = true ->
  add_request_body self request_body (input_schema P R) =
  Ok (input_schema
        (write_all P (object_properties
                        (resolved self (declared_body_schema request_body))))
        (R ++ object_required
                (resolved self (declared_body_schema request_body)))).
Proof.
  intros Hrb Hc Hj Href Hobj.
  unfold add_request_body.
  rewrite (get_field request_body) by assumption. cbn [bind].
  rewrite (get_field _ "application/json") by assumption. cbn [bind].
  rewrite (get_field _ "schema") by assumption. cbn [bind].
  fold (declared_body_schema request_body).
  rewrite resolve_body_ref_spec by assumption. cbn [bind].
  set (schema := resolved self (declared_body_schema request_body)) in *.
  unfold wf_object_schema in Hobj. apply andb_prop in Hobj.
  destruct Hobj as [Hd Hobj].
  rewrite (get_field schema "type") by assumption. cbn [bind].
  unfold object_properties, object_required. fold (is_object schema).
  destruct (is_object schema).
  - apply andb_prop in Hobj. destruct Hobj as [Hobj Hreq].
    apply andb_prop in Hobj. destruct Hobj as [Hprops Hall].
    rewrite (get_field schema "properties") by assumption. cbn [bind].
    rewrite (get_field schema "required") by assumption. cbn [bind].
    rewrite items_entries by assumption. cbn [bind].
    rewrite body_properties_loop by assumption. cbn [bind].
    rewrite iter_elements by assumption. cbn [bind].
    apply extend_in_required.
  - cbn [write_all fold_left]. rewrite app_nil_r. reflexivity.
Qed.

(** The synthesizer computes the merge the specification describes. *)
Lemma generate_input_schema_spec (self : t) (operation : pyval) :
  wf_operation self operation = true ->
  _generate_input_schema self operation = Ok (synthesized self operation).
Proof.
  unfold wf_operation. intros H.
  apply andb_prop in H. destruct H as [H Hbody].
  apply andb_prop in H. destruct H as [Hop Hparams].
  unfold wf_parameters in Hparams. apply andb_prop in Hparams.
  destruct Hparams as [Hlist Hall].
  unfold _generate_input_schema.
  rewrite (get_field operation "parameters") by assumption. cbn [bind].
  rewrite iter_elements by assumption. cbn [bind].
  fold (parameters operation).
  change empty_schema with (input_schema [] []).
  rewrite (parameters_loop "path") by auto. cbn [bind].
  rewrite (parameters_loop "query") by auto. cbn [bind].
  rewrite (get_field operation "requestBody") by assumption. cbn [bind].
  unfold synthesized, merge_steps, merged_required.
  unfold body_properties, body_required, body_schema.
  fold (param_properties "path" operation) (param_properties "query" operation).
  fold (param_required "path" operation) (param_required "query" operation).
  unfold wf_request_body in Hbody.
  destruct (truthy (field operation "requestBody" PNone)).
  - repeat (apply andb_prop in Hbody; destruct Hbody as [Hbody ?]).
    rewrite add_request_body_spec by assumption.
    rewrite !write_all_app, <- app_assoc. reflexivity.
  - change (object_properties (PDict [])) with (@nil (pyval * pyval)).
    change (object_required (PDict [])) with (@nil pyval).
    rewrite !app_nil_r, !write_all_app. reflexivity.
Qed.

End InputSchemaFacts.

(* ================================================================== *)
(** ** Merge order of the input schema *)

Section MergeOrder.
Import Py OpenAPIToMCP Spec.

Lemma lookup_write_all_fold (steps : dict) (k : pyval) :
  forall m : dict,
  lookup (write_all m steps) k = fold_left (write_step k) steps (lookup m k).
Proof.
  induction steps as [|[k' v'] rest IH]; intros m.
  - reflexivity.
  - cbn [write_all fold_left fst snd]. fold (write_all (update m k' v') rest).
    rewrite IH, lookup_update. reflexivity.
Qed.

Lemma write_step_default (steps : dict) (k : pyval) :
  forall acc : option pyval,
  fold_left (write_step k) steps acc =
  match fold_left (write_step k) steps None with
  | Some v => Some v
  | None => acc
  end.
Proof.
  induction steps as [|kv rest IH]; intros acc.
  - reflexivity.
  - cbn [fold_left]. rewrite IH. rewrite (IH (write_step k None kv)).
    destruct (fold_left (write_step k) rest None); [reflexivity|].
    unfold write_step. destruct (key_eq (fst kv) k); reflexivity.
Qed.

(** Last write wins: a key reads the value of the last step that wrote
    it, and what was there before when no step did. *)
Lemma lookup_write_all (m steps : dict) (k : pyval) :
  lookup (write_all m steps) k =
  match last_write steps k with
  | Some v => Some v
  | None => lookup m k
  end.
Proof.
  rewrite lookup_write_all_fold. apply write_step_default.
Qed.

Lemma last_write_app (a b : dict) (k : pyval) :
  last_write (a ++ b) k =
  match last_write b k with
  | Some v => Some v
  | None => last_write a k
  end.
Proof.
  unfold last_write. rewrite fold_left_app.
  apply (write_step_default b k).
Qed.

End MergeOrder.

(* ================================================================== *)
(** ** The shape of the input schema *)

Section SchemaShape.
Import Py OpenAPIToMCP Spec.

Lemma bind_ok {A B : Type} (c : result A) (k : A -> result B) (b : B) :
  bind c k = Ok b -> exists a, c = Ok a /\ k a = Ok b.
Proof.
  destruct c as [a|e]; simpl; intros H; [eauto | discriminate].
Qed.

Lemma setitem_in_shaped (schema k v s' : pyval) :
  shaped schema ->
  setitem_in schema "properties" k v = Ok s' -> shaped s'.
Proof.
  intros (P & R & ->) H.
  destruct (hashable k) eqn:Hk.
  - rewrite setitem_in_properties in H by assumption.
    inversion H. red. eauto.
  - rewrite setitem_in_unhashable in H by assumption. discriminate.
Qed.

Lemma extend_in_shaped (schema s' : pyval) (vs : list pyval) :
  shaped schema ->
  extend_in schema "required" vs = Ok s' -> shaped s'.
Proof.
  intros (P & R & ->) H. rewrite extend_in_required in H.
  inversion H. red. eauto.
Qed.

Lemma for_each_shaped {A : Type} (body : A -> pyval -> result pyval) :
  (forall x s s', shaped s -> body x s = Ok s' -> shaped s') ->
  forall (l : list A) (s s' : pyval),
  shaped s -> for_each l s body = Ok s' -> shaped s'.
Proof.
  intros Hbody. induction l as [|x rest IH]; intros s s' Hs H.
  - inversion H. subst. assumption.
  - cbn [for_each] in H. destruct (body x s) as [s1|e] eqn:E; [|discriminate].
    eapply IH; [|eassumption]. eapply Hbody; eassumption.
Qed.

Tactic Notation "bind_step" hyp(H) "as" ident(a) ident(Ha) :=
  apply bind_ok in H; destruct H as (a & Ha & H).

Lemma add_parameter_shaped (location : string) (param s s' : pyval) :
  shaped s -> add_parameter location param s = Ok s' -> shaped s'.
Proof.
  intros Hs H. unfold add_parameter in H.
  bind_step H as param_in Hin.
  destruct (eq_str param_in location).
  - bind_step H as param_schema Hschema.
    bind_step H as param_type Htype.
    bind_step H as description Hdescription.
    bind_step H as name Hname.
    bind_step H as stored Hstored.
    bind_step H as required Hrequired.
    assert (Hshaped : shaped stored)
      by (eapply setitem_in_shaped; eassumption).
    destruct (truthy required).
    + bind_step H as name' Hname'.
      eapply extend_in_shaped; eassumption.
    + inversion H. subst. assumption.
  - inversion H. subst. assumption.
Qed.

Lemma add_body_property_shaped (prop : pyval * pyval) (s s' : pyval) :
  shaped s -> add_body_property prop s = Ok s' -> shaped s'.
Proof.
  intros Hs H. destruct prop as [prop_name prop_def].
  unfold add_body_property in H.
  bind_step H as prop_type Htype.
  bind_step H as description Hdescription.
  bind_step H as enum Henum.
  bind_step H as minimum Hminimum.
  bind_step H as maximum Hmaximum.
  bind_step H as stored Hstored.
  bind_step H as entry Hentry.
  bind_step H as fields Hfields.
  eapply setitem_in_shaped; [|eassumption].
  eapply setitem_in_shaped; eassumption.
Qed.

Lemma add_request_body_shaped (self : t) (request_body s s' : pyval) :
  shaped s -> add_request_body self request_body s = Ok s' -> shaped s'.
Proof.
  intros Hs H. unfold add_request_body in H.
  bind_step H as content Hcontent.
  bind_step H as json_content Hjson.
  bind_step H as declared Hdeclared.
  bind_step H as body_schema Hbody.
  bind_step H as body_type Htype.
  destruct (eq_str body_type "object").
  - bind_step H as properties Hproperties.
    bind_step H as required Hrequired.
    bind_step H as props Hprops.
    bind_step H as merged Hmerged.
    bind_step H as names Hnames.
    eapply extend_in_shaped; [|eassumption].
    eapply for_each_shaped; [|eassumption|eassumption].
    intros. eapply add_body_property_shaped; eassumption.
  - inversion H. subst. assumption.
Qed.

(** Whenever the synthesizer returns, it returns the three keys. *)
Lemma generate_input_schema_shaped (self : t) (operation schema : pyval) :
  _generate_input_schema self operation = Ok schema -> shaped schema.
Proof.
  intros H. unfold _generate_input_schema in H.
  apply bind_ok in H. destruct H as (parameters & _ & H).
  apply bind_ok in H. destruct H as (params & _ & H).
  apply bind_ok in H. destruct H as (s1 & H1 & H).
  apply bind_ok in H. destruct H as (s2 & H2 & H).
  apply bind_ok in H. destruct H as (request_body & _ & H).
  assert (Hs1 : shaped s1).
  { eapply for_each_shaped; [|exists [], []; reflexivity|eassumption].
    intros. eapply add_parameter_shaped; eassumption. }
  assert (Hs2 : shaped s2).
  { eapply for_each_shaped; [|eassumption|eassumption].
    intros. eapply add_parameter_shaped; eassumption. }
  destruct (truthy request_body).
  - eapply add_request_body_shaped; eassumption.
  - inversion H. subst. assumption.
Qed.

End SchemaShape.

(* ================================================================== *)
(** ** Claims about the input schema synthesizer *)

Section InputSchemaClaims.
Import Py OpenAPIToMCP Spec.

(** C1.  For a well-formed operation the synthesized input schema is the
    merge, in this order, of the path parameters, the query parameters and
    the properties of the JSON request body: [properties] is what writing
    the three groups one after the other into an empty dictionary leaves,
    so a name reads the entry of the last group (and the last item in it)
    that wrote it; [required] is the path names, then the query names,
    then the body schema's own required list, whole and not deduplicated,
    so a name required as a parameter and in the body stands twice. *)
Theorem input_schema_merge_order (self : t) (operation : pyval) :
  wf_operation self operation = true ->
  exists (properties : dict) (required : list pyval),
    _generate_input_schema self operation =
      Ok (PDict [(PStr "type", PStr "object");
                 (PStr "properties", PDict properties);
                 (PStr "required", PList required)])
    /\ properties =
         write_all [] (param_properties "path" operation ++
                       param_properties "query" operation ++
                       body_properties self operation)
    /\ (forall name : pyval,
          lookup properties name =
          match last_write (body_properties self operation) name with
          | Some entry => Some entry
          | None =>
              match last_write (param_properties "query" operation) name with
              | Some entry => Some entry
              | None => last_write (param_properties "path" operation) name
              end
          end)
    /\ required =
         param_required "path" operation ++
         param_required "query" operation ++
         body_required self operation
    /\ (forall name : pyval,
          In name (param_required "path" operation ++
                   param_required "query" operation) ->
          In name (body_required self operation) ->
          exists l1 l2 l3 : list pyval,
            required = l1 ++ name :: l2 ++ name :: l3).
Proof.
  intros Hwf.
  exists (write_all [] (merge_steps self operation)),
         (merged_required self operation).
  split; [exact (generate_input_schema_spec self operation Hwf)|].
  split; [reflexivity|].
  split.
  - intros name. rewrite lookup_write_all. unfold merge_steps.
    rewrite !last_write_app.
    destruct (last_write (body_properties self operation) name); [reflexivity|].
    destruct (last_write (param_properties "query" operation) name);
      [reflexivity|].
    destruct (last_write (param_properties "path" operation) name); reflexivity.
  - split; [reflexivity|].
    intros name Hparam Hbody.
    apply in_split in Hparam. destruct Hparam as (l1 & l2 & Hparam).
    apply in_split in Hbody. destruct Hbody as (m1 & m2 & Hbody).
    exists l1, (l2 ++ m1), m2.
    unfold merged_required. rewrite Hbody.
    rewrite (app_assoc (param_required "path" operation)), Hparam.
    rewrite <- !app_assoc. reflexivity.
Qed.

Lemma input_schema_merge_order_witness :
  wf_operation Examples.generator Examples.put_user = true /\
  exists (properties : dict) (required : list pyval),
    _generate_input_schema Examples.generator Examples.put_user =
      Ok (PDict [(PStr "type", PStr "object");
                 (PStr "properties", PDict properties);
                 (PStr "required", PList required)])
    /\ properties =
         write_all [] (param_properties "path" Examples.put_user ++
                       param_properties "query" Examples.put_user ++
                       body_properties Examples.generator Examples.put_user)
    /\ (forall name : pyval,
          lookup properties name =
          match last_write (body_properties Examples.generator Examples.put_user)
                           name with
          | Some entry => Some entry
          | None =>
              match last_write (param_properties "query" Examples.put_user)
                               name with
              | Some entry => Some entry
              | None => last_write (param_properties "path" Examples.put_user) name
              end
          end)
    /\ required =
         param_required "path" Examples.put_user ++
         param_required "query" Examples.put_user ++
         body_required Examples.generator Examples.put_user
    /\ (forall name : pyval,
          In name (param_required "path" Examples.put_user ++
                   param_required "query" Examples.put_user) ->
          In name (body_required Examples.generator Examples.put_user) ->
          exists l1 l2 l3 : list pyval,
            required = l1 ++ name :: l2 ++ name :: l3).
Proof.
  split.
  - vm_compute. reflexivity.
  - apply (input_schema_merge_order Examples.generator Examples.put_user).
    vm_compute. reflexivity.
Defined.

(** On [put_user] the merge runs as follows: the body's [id] overwrites
    the query's, which overwrote the path's, and [id] is required twice. *)
Example put_user_schema :
  _generate_input_schema Examples.generator Examples.put_user =
  Ok (Examples.obj
        [("type", PStr "object");
         ("properties",
          Examples.obj
            [("id", Examples.obj [("type", PStr "integer");
                                  ("description", PStr "");
                                  ("minimum", PInt 0)]);
             ("nick", Examples.obj [("type", PStr "string");
                                    ("description", PStr "")])]);
         ("required", PList [PStr "id"; PStr "id"])]).
Proof. vm_compute. reflexivity. Qed.

(** C10.  The synthesized input schema is a dictionary of exactly the
    three keys [type], [properties] and [required], with [type] equal to
    ['object']: so whenever the synthesizer returns, and it returns on
    every well-formed operation.  For an operation without parameters and
    without request body (neither given, or an empty list and a value
    that is not true), [properties] is the empty dictionary and [required]
    the empty list, both present. *)
Theorem input_schema_shape (self : t) (operation : pyval) :
  (forall schema : pyval,
     _generate_input_schema self operation = Ok schema ->
     exists (properties : dict) (required : list pyval),
       schema = PDict [(PStr "type", PStr "object");
                       (PStr "properties", PDict properties);
                       (PStr "required", PList required)]
       /\ keys (entries schema) =
            [PStr "type"; PStr "properties"; PStr "required"])
  /\ (wf_operation self operation = true ->
      exists schema : pyval, _generate_input_schema self operation = Ok schema)
  /\ (is_dict operation = true ->
      field operation "parameters" (PList []) = PList [] ->
      truthy (field operation "requestBody" PNone) = false ->
      _generate_input_schema self operation =
        Ok (PDict [(PStr "type", PStr "object");
                   (PStr "properties", PDict []);
                   (PStr "required", PList [])])).
Proof.
  split; [|split].
  - intros schema H. apply generate_input_schema_shaped in H.
    destruct H as (P & R & ->). exists P, R. split; reflexivity.
  - intros Hwf. eexists. apply generate_input_schema_spec, Hwf.
  - intros Hd Hp Hb. unfold _generate_input_schema.
    rewrite !(get_field operation) by assumption. cbn [bind].
    rewrite Hp. cbn [iter bind for_each]. rewrite Hb. reflexivity.
Qed.

Lemma input_schema_shape_witness :
  _generate_input_schema Examples.generator (PDict []) =
    Ok (PDict [(PStr "type", PStr "object");
               (PStr "properties", PDict []);
               (PStr "required", PList [])])
  /\ exists schema : pyval,
       _generate_input_schema Examples.generator Examples.put_user = Ok schema.
Proof.
  split.
  - apply (input_schema_shape Examples.generator (PDict [])); reflexivity.
  - apply (input_schema_shape Examples.generator Examples.put_user).
    vm_compute. reflexivity.
Defined.

End InputSchemaClaims.

(* ================================================================== *)
(** ** Claims about the request body *)

Section RequestBodyClaims.
Import Py OpenAPIToMCP Spec.

Lemma field_absent (d : pyval) (k : string) (default : pyval) :
  has_field d k = false -> field d k default = default.
Proof.
  destruct d; simpl; auto.
  destruct (lookup m (PStr k)); [discriminate | reflexivity].
Qed.

Lemma last_write_none (m : dict) (k : pyval) :
  existsb (fun kv => key_eq (fst kv) k) m = false -> last_write m k = None.
Proof.
  unfold last_write.
  induction m as [|kv rest IH] using rev_ind; intros H.
  - reflexivity.
  - rewrite existsb_app in H. apply orb_false_elim in H. destruct H as [Hrest Hkv].
    rewrite fold_left_app. cbn [fold_left]. cbn [existsb] in Hkv.
    rewrite orb_false_r in Hkv. unfold write_step at 1. rewrite Hkv. auto.
Qed.

Lemma existsb_key_eq (m : dict) (k k' : pyval) :
  key_eq k' k = true ->
  existsb (fun kv => key_eq (fst kv) k) m =
  existsb (fun kv => key_eq (fst kv) k') m.
Proof.
  intros E. induction m as [|kv rest IH]; [reflexivity|].
  cbn [existsb]. rewrite IH. f_equal.
  rewrite (key_eq_sym (fst kv) k), (key_eq_sym (fst kv) k').
  symmetry. apply key_eq_left. assumption.
Qed.

(** In a dictionary the last entry under a key is the one lookup finds. *)
Lemma last_write_lookup (m : dict) (k : pyval) :
  distinct_keys m = true -> last_write m k = lookup m k.
Proof.
  induction m as [|[k' v'] rest IH]; intros H.
  - reflexivity.
  - cbn [distinct_keys] in H. apply andb_prop in H. destruct H as [Hk Hrest].
    change ((k', v') :: rest) with ([(k', v')] ++ rest).
    rewrite last_write_app. cbn [app lookup].
    destruct (key_eq k' k) eqn:E.
    + rewrite last_write_none.
      * unfold last_write, write_step. cbn [fold_left fst snd].
        rewrite E. reflexivity.
      * rewrite (existsb_key_eq rest k k' E).
        apply negb_true_iff. assumption.
    + rewrite IH by assumption.
      unfold last_write, write_step. cbn [fold_left fst]. rewrite E.
      destruct (lookup rest k); reflexivity.
Qed.

Lemma last_write_map (g : pyval -> pyval) (m : dict) (k : pyval) :
  last_write (map (fun kv => (fst kv, g (snd kv))) m) k =
  option_map g (last_write m k).
Proof.
  unfold last_write.
  induction m as [|kv rest IH] using rev_ind.
  - reflexivity.
  - rewrite map_app, !fold_left_app. cbn [map fold_left].
    unfold write_step at 1 3. cbn [fst snd].
    destruct (key_eq (fst kv) k); [reflexivity | exact IH].
Qed.

Lemma lookup_body_property (prop_def : pyval) :
  let entry := filter (fun kv => not_none (snd kv)) (body_fields prop_def) in
  lookup entry (PStr "type") = copied prop_def "type" (PStr "string")
  /\ lookup entry (PStr "description") = copied prop_def "description" (PStr "")
  /\ lookup entry (PStr "enum") = copied prop_def "enum" PNone
  /\ lookup entry (PStr "minimum") = copied prop_def "minimum" PNone
  /\ lookup entry (PStr "maximum") = copied prop_def "maximum" PNone.
Proof.
  unfold body_fields, copied. cbn [filter snd].
  destruct (not_none (field prop_def "type" (PStr "string")));
    destruct (not_none (field prop_def "description" (PStr "")));
    destruct (not_none (field prop_def "enum" PNone));
    destruct (not_none (field prop_def "minimum" PNone));
    destruct (not_none (field prop_def "maximum" PNone));
    repeat split; reflexivity.
Qed.

(** C2, as the claim states it, fails: the body property [nick] of
    [User] has no description, and its entry in the input schema of
    [put_user] has the key [description], with the empty string. *)
Lemma absent_description_counterexample :
  exists (properties : dict) (required : list pyval) (entry : dict),
    _generate_input_schema Examples.generator Examples.put_user =
      Ok (input_schema properties required)
    /\ lookup (entries (field (body_schema Examples.generator Examples.put_user)
                               "properties" (PDict [])))
               (PStr "nick") = Some (PDict [])
    /\ has_field (PDict []) "description" = false
    /\ lookup properties (PStr "nick") = Some (PDict entry)
    /\ lookup entry (PStr "description") = Some (PStr "").
Proof.
  eexists _, _, _. split; [vm_compute; reflexivity|].
  repeat split.
Qed.

Lemma field_present (d : pyval) (k : string) (default : pyval) :
  has_field d k = true -> field d k default = field d k PNone.
Proof.
  destruct d; simpl; try discriminate.
  destruct (lookup m (PStr k)); [reflexivity | discriminate].
Qed.

Lemma copied_present (prop_def : pyval) (f : string) (default : pyval) :
  has_field prop_def f = true ->
  copied prop_def f default =
  if not_none (field prop_def f PNone) then Some (field prop_def f PNone)
  else None.
Proof.
  intros H. unfold copied. rewrite (field_present _ _ default) by assumption.
  reflexivity.
Qed.

(** C2, amended.  For a well-formed operation whose resolved JSON body
    schema has type ['object'], the entry of a body property in the
    synthesized input schema holds, of the five fields [type],
    [description], [enum], [minimum] and [maximum]: the source's value
    for a field the source has with a value other than null; nothing for
    a field the source has as null, [type] and [description] included;
    for a field the source does not have, ['string'] under [type], the
    empty string under [description], and nothing under [enum],
    [minimum] and [maximum].  So no entry holds a [None], and the entry
    has no other key. *)
Theorem body_property_fields (self : t) (operation name prop_def : pyval) :
  wf_operation self operation = true ->
  is_object (body_schema self operation) = true ->
  distinct_keys
    (entries (field (body_schema self operation) "properties" (PDict []))) = true ->
  lookup (entries (field (body_schema self operation) "properties" (PDict [])))
         name = Some prop_def ->
  exists (properties : dict) (required : list pyval) (entry : dict),
    _generate_input_schema self operation = Ok (input_schema properties required)
    /\ lookup properties name = Some (PDict entry)
    /\ lookup entry (PStr "type") = copied prop_def "type" (PStr "string")
    /\ lookup entry (PStr "description") = copied prop_def "description" (PStr "")
    /\ lookup entry (PStr "enum") = copied prop_def "enum" PNone
    /\ lookup entry (PStr "minimum") = copied prop_def "minimum" PNone
    /\ lookup entry (PStr "maximum") = copied prop_def "maximum" PNone
    /\ (has_field prop_def "type" = false ->
        lookup entry (PStr "type") = Some (PStr "string"))
    /\ (has_field prop_def "description" = false ->
        lookup entry (PStr "description") = Some (PStr ""))
    /\ (forall f : string,
          In f ["enum"; "minimum"; "maximum"] ->
          has_field prop_def f = false -> lookup entry (PStr f) = None)
    /\ (forall (k v : pyval),
          In (k, v) entry ->
          v <> PNone /\
          In k [PStr "type"; PStr "description"; PStr "enum";
                PStr "minimum"; PStr "maximum"])
    /\ (forall f : string,
          In f five_fields ->
          has_field prop_def f = true ->
          field prop_def f PNone = PNone ->
          lookup entry (PStr f) = None)
    /\ (forall f : string,
          In f five_fields ->
          has_field prop_def f = true ->
          field prop_def f PNone <> PNone ->
          lookup entry (PStr f) = Some (field prop_def f PNone)).
Proof.
  intros Hwf Hobj Hdistinct Hsrc.
  exists (write_all [] (merge_steps self operation)),
         (merged_required self operation),
         (filter (fun kv => not_none (snd kv)) (body_fields prop_def)).
  split; [exact (generate_input_schema_spec self operation Hwf)|].
  split.
  { rewrite lookup_write_all. unfold merge_steps. rewrite !last_write_app.
    unfold body_properties, object_properties. rewrite Hobj.
    rewrite last_write_map, last_write_lookup, Hsrc by assumption.
    reflexivity. }
  destruct (lookup_body_property prop_def) as (Ht & Hd & He & Hmin & Hmax).
  repeat (split; [assumption|]).
  assert (Hfield : forall f : string,
            In f five_fields ->
            has_field prop_def f = true ->
            lookup (filter (fun kv => not_none (snd kv)) (body_fields prop_def))
                   (PStr f) =
            if not_none (field prop_def f PNone)
            then Some (field prop_def f PNone) else None).
  { intros f Hf Hpresent.
    destruct Hf as [<-|[<-|[<-|[<-|[<-|[]]]]]];
      [rewrite Ht|rewrite Hd|rewrite He|rewrite Hmin|rewrite Hmax];
      apply copied_present; assumption. }
  split; [|split; [|split; [|split; [|split]]]].
  - intros Habsent. rewrite Ht. unfold copied.
    rewrite field_absent by assumption. reflexivity.
  - intros Habsent. rewrite Hd. unfold copied.
    rewrite field_absent by assumption. reflexivity.
  - intros f Hf Habsent.
    assert (Hnone : copied prop_def f PNone = None).
    { unfold copied. rewrite field_absent by assumption. reflexivity. }
    destruct Hf as [<-|[<-|[<-|[]]]]; congruence.
  - intros k v Hin. apply filter_In in Hin. destruct Hin as [Hin Hv].
    split.
    + intros ->. discriminate.
    + unfold body_fields in Hin. cbn [In] in Hin.
      cbn [In].
      repeat (destruct Hin as [Hin|Hin]; [inversion Hin; tauto|]).
      destruct Hin.
  - intros f Hf Hpresent Hnull. rewrite Hfield, Hnull by assumption.
    reflexivity.
  - intros f Hf Hpresent Hvalue. rewrite Hfield by assumption.
    destruct (field prop_def f PNone); try reflexivity. congruence.
Qed.

(** A property whose type and description are null gets an empty entry. *)
Example null_fields_dropped :
  _generate_input_schema Examples.generator
    (Examples.obj
       [("requestBody",
         Examples.json_body
           (Examples.obj
              [("type", PStr "object");
               ("properties",
                Examples.obj
                  [("n", Examples.obj [("type", PNone);
                                       ("description", PNone)])])]))])
  = Ok (input_schema [(PStr "n", PDict [])] []).
Proof. vm_compute. reflexivity. Qed.

Lemma body_property_fields_witness :
  wf_operation Examples.generator Examples.put_user = true
  /\ is_object (body_schema Examples.generator Examples.put_user) = true
  /\ distinct_keys
       (entries (field (body_schema Examples.generator Examples.put_user)
                       "properties" (PDict []))) = true
  /\ lookup (entries (field (body_schema Examples.generator Examples.put_user)
                             "properties" (PDict [])))
             (PStr "id") =
     Some (Examples.obj [("type", PStr "integer"); ("minimum", PInt 0)])
  /\ exists (properties : dict) (required : list pyval) (entry : dict),
       _generate_input_schema Examples.generator Examples.put_user =
         Ok (input_schema properties required)
       /\ lookup properties (PStr "id") = Some (PDict entry)
       /\ lookup entry (PStr "type") = Some (PStr "integer")
       /\ lookup entry (PStr "description") = Some (PStr "")
       /\ lookup entry (PStr "enum") = None
       /\ lookup entry (PStr "minimum") = Some (PInt 0)
       /\ lookup entry (PStr "maximum") = None.
Proof.
  assert (H1 : wf_operation Examples.generator Examples.put_user = true)
    by (vm_compute; reflexivity).
  assert (H2 : is_object (body_schema Examples.generator Examples.put_user) = true)
    by (vm_compute; reflexivity).
  assert (H3 : distinct_keys
                 (entries (field (body_schema Examples.generator Examples.put_user)
                                 "properties" (PDict []))) = true)
    by (vm_compute; reflexivity).
  assert (H4 : lookup (entries (field (body_schema Examples.generator
                                                   Examples.put_user)
                                      "properties" (PDict [])))
                      (PStr "id") =
               Some (Examples.obj [("type", PStr "integer"); ("minimum", PInt 0)]))
    by (vm_compute; reflexivity).
  repeat (split; [assumption|]).
  destruct (body_property_fields Examples.generator Examples.put_user
              (PStr "id")
              (Examples.obj [("type", PStr "integer"); ("minimum", PInt 0)])
              H1 H2 H3 H4)
    as (properties & required & entry & H).
  exists properties, required, entry. tauto.
Defined.




(** A node that holds nothing but a pointer out of the document adds
    nothing either. *)
Example bare_external_ref :
  _generate_input_schema Examples.generator
    (Examples.obj
       [("requestBody",
         Examples.json_body (Examples.obj [("$ref", PStr "other.json#/Thing")]))])
  = Ok (input_schema [] []).
Proof. vm_compute. reflexivity. Qed.

End RequestBodyClaims.

(* ================================================================== *)
(** ** Claims about the operation ID synthesizer *)

Section OperationIdFacts.
Import Py OpenAPIToMCP Spec.

Lemma verb_prefix_spec (path method : string) :
  verb_prefix (PStr path) (str_lower method) = Ok (verb path method).
Proof.
  unfold verb_prefix, verb. cbn zeta.
  destruct (String.eqb (str_lower method) "get"); [reflexivity|].
  destruct (String.eqb (str_lower method) "post"); [reflexivity|].
  destruct (String.eqb (str_lower method) "put"); [reflexivity|].
  destruct (String.eqb (str_lower method) "delete"); reflexivity.
Qed.

(** On strings the synthesizer always returns, and returns the name of
    the specification with [capitalize] for the capitalization. *)
Lemma generate_operation_id_spec (path method : string) :
  _generate_operation_id (PStr path) (PStr method) =
  Ok (synthesized_name str_capitalize path method).
Proof.
  unfold _generate_operation_id, synthesized_name. cbn [Re.sub_params bind lower].
  rewrite verb_prefix_spec. cbn [bind]. fold (segments path).
  destruct (segments path); reflexivity.
Qed.




(** *** Paths made of parameters only *)

Lemma to_rbrace_name (name tail : string) :
  no_char "}" name = true ->
  Re.to_rbrace (name ^^ String "}" tail) = Some (S (String.length name)).
Proof.
  induction name as [|c rest IH]; intros H.
  - reflexivity.
  - cbn [no_char] in H. apply andb_prop in H. destruct H as [Hc Hrest].
    apply negb_true_iff in Hc.
    cbn [String.append Re.to_rbrace String.length]. rewrite Hc.
    rewrite IH by assumption. reflexivity.
Qed.

Lemma sub_from_skip (a : string) (x : ascii) (tail : string) :
  Re.sub_from (S (String.length a)) (a ^^ String x tail) = Re.sub_from 0 tail.
Proof.
  induction a as [|c rest IH]; [reflexivity|].
  cbn [String.length String.append Re.sub_from]. exact IH.
Qed.

(** A whole [{name}] at the head of the text is dropped. *)
Lemma strip_param_head (name tail : string) :
  name <> "" -> no_char "}" name = true ->
  Re.strip_params (String "{" (name ^^ String "}" tail)) = Re.strip_params tail.
Proof.
  intros Hne Hno. unfold Re.strip_params.
  cbn [Re.sub_from Re.param_match].
  change (Ascii.eqb "{" "{") with true. cbn iota.
  rewrite to_rbrace_name by assumption.
  destruct name as [|c rest]; [congruence|].
  cbn [String.length].
  apply (sub_from_skip (String c rest) "}" tail).
Qed.

Lemma strip_slash_head (tail : string) :
  Re.strip_params (String "/" tail) = String "/" (Re.strip_params tail).
Proof. reflexivity. Qed.

Lemma append_assoc (a b c : string) : (a ^^ b) ^^ c = a ^^ b ^^ c.
Proof.
  induction a as [|x a IH]; [reflexivity|].
  cbn [String.append]. rewrite IH. reflexivity.
Qed.

Lemma str_split_cons (sep : ascii) (s : string) :
  exists piece pieces, str_split sep s = piece :: pieces.
Proof.
  destruct s as [|c rest]; cbn [str_split]; [eauto|].
  destruct (Ascii.eqb c sep); [eauto|].
  destruct (str_split sep rest); eauto.
Qed.

(** Joining the pieces of a split gives the text back. *)
Lemma str_join_split (s : string) : str_join "/" (str_split "/" s) = s.
Proof.
  unfold str_join. induction s as [|c rest IH]; [reflexivity|].
  cbn [str_split].
  destruct (str_split_cons "/" rest) as (piece & pieces & E).
  rewrite E in *.
  destruct (Ascii.eqb c "/") eqn:Hc.
  - apply Ascii.eqb_eq in Hc. subst c.
    cbn [String.concat String.append]. f_equal. exact IH.
  - cbn [String.concat] in *. destruct pieces as [|q r].
    + subst. reflexivity.
    + cbn [String.append]. f_equal. exact IH.
Qed.

Lemma strip_empty_or_param (piece tail : string) :
  empty_or_param piece ->
  Re.strip_params (piece ^^ String "/" tail) = String "/" (Re.strip_params tail)
  /\ Re.strip_params piece = "".
Proof.
  intros [->|(name & -> & Hne & Hno)].
  - split; reflexivity.
  - split.
    + change ("{" ^^ name ^^ "}") with (String "{" (name ^^ "}")).
      cbn [String.append]. rewrite append_assoc. cbn [String.append].
      rewrite strip_param_head by assumption. reflexivity.
    + change ("{" ^^ name ^^ "}") with (String "{" (name ^^ String "}" "")).
      rewrite strip_param_head by assumption. reflexivity.
Qed.

(** Stripping a text whose pieces are all empty or parameters leaves
    slashes only. *)
Lemma strip_pieces (pieces : list string) :
  Forall empty_or_param pieces ->
  exists n, Re.strip_params (str_join "/" pieces) = slashes n.
Proof.
  unfold str_join. induction pieces as [|p rest IH]; intros H.
  - exists 0. reflexivity.
  - inversion H as [|? ? Hp Hrest]; subst.
    destruct rest as [|q r].
    + exists 0. cbn [String.concat].
      apply (strip_empty_or_param p "" Hp).
    + destruct (IH Hrest) as (n & E). exists (S n).
      change (String.concat "/" (p :: q :: r))
        with (p ^^ String "/" (String.concat "/" (q :: r))).
      destruct (strip_empty_or_param p (String.concat "/" (q :: r)) Hp) as [-> _].
      rewrite E. reflexivity.
Qed.

Lemma segments_slashes (n : nat) :
  filter nonempty (str_split "/" (slashes n)) = [].
Proof.
  induction n as [|k IH]; [reflexivity|].
  cbn [slashes str_split]. change (Ascii.eqb "/" "/") with true. cbn iota.
  cbn [filter]. exact IH.
Qed.

Lemma params_only_segments (path : string) :
  Forall param_segment (raw_segments path) -> segments path = [].
Proof.
  intros H. unfold segments.
  rewrite <- (str_join_split path).
  destruct (strip_pieces (str_split "/" path)) as (n & ->).
  - apply Forall_forall. intros piece Hin.
    destruct (String.eqb piece "") eqn:E.
    + left. apply String.eqb_eq. assumption.
    + right. rewrite Forall_forall in H. apply H.
      unfold raw_segments. apply filter_In. split; [assumption|].
      unfold nonempty. rewrite E. reflexivity.
  - apply segments_slashes.
Qed.


(** C9.  Without declared [operationId]: [GET /users/{id}] is named
    [getUsers]; [POST /items] is named [postItems]; and a path whose every
    segment is a [{param}] segment is named by the verb prefix followed by
    [Root]. *)
Theorem operation_id_scenarios :
  _generate_operation_id (PStr "/users/{id}") (PStr "GET") = Ok "getUsers"
  /\ _generate_operation_id (PStr "/items") (PStr "POST") = Ok "postItems"
  /\ (forall path method : string,
        Forall param_segment (raw_segments path) ->
        _generate_operation_id (PStr path) (PStr method) =
          Ok (verb path method ^^ "Root")).
Proof.
  split; [vm_compute; reflexivity|].
  split; [vm_compute; reflexivity|].
  intros path method H.
  rewrite generate_operation_id_spec. unfold synthesized_name.
  rewrite params_only_segments by assumption. reflexivity.
Qed.

Lemma operation_id_scenarios_witness :
  Forall param_segment (raw_segments "/{tenant}/{id}")
  /\ _generate_operation_id (PStr "/{tenant}/{id}") (PStr "DELETE") =
       Ok "deleteRoot".
Proof.
  assert (H : Forall param_segment (raw_segments "/{tenant}/{id}")).
  { repeat constructor.
    - exists "tenant". repeat split. discriminate.
    - exists "id". repeat split. discriminate. }
  split; [exact H|].
  destruct operation_id_scenarios as (_ & _ & Hroot).
  exact (Hroot "/{tenant}/{id}" "DELETE" H).
Defined.

End OperationIdFacts.

(* ================================================================== *)
(** ** Claims about the tool descriptors *)

Section ToolClaims.
Import Py OpenAPIToMCP Spec.

(** A well-formed operation under a path gives its descriptor. *)
Lemma generate_tool_spec (self : t) (path method : string) (operation : pyval) :
  wf_operation self operation = true ->
  _generate_tool self (PStr path) (PStr method) operation =
  Ok (tool_descriptor self path method operation).
Proof.
  intros Hwf.
  assert (Hd : is_dict operation = true).
  { unfold wf_operation in Hwf. apply andb_prop in Hwf. destruct Hwf as [H _].
    apply andb_prop in H. tauto. }
  unfold _generate_tool, tool_descriptor, operation_name.
  rewrite !(get_field operation) by assumption. cbn [bind].
  rewrite generate_input_schema_spec by assumption.
  destruct (truthy (field operation "operationId" PNone)); cbn [negb bind].
  - rewrite (get_field operation) by assumption. reflexivity.
  - rewrite generate_operation_id_spec. cbn [bind].
    rewrite (get_field operation) by assumption. reflexivity.
Qed.

(** A loop that appends to its list what [f] gives for each item. *)
Lemma for_each_append {A B : Type} (body : A -> list B -> result (list B))
    (f : A -> list B) (ok : A -> bool) :
  (forall x acc, ok x = true -> body x acc = Ok (acc ++ f x)) ->
  forall (l : list A) (acc : list B),
  forallb ok l = true ->
  for_each l acc body = Ok (acc ++ flat_map f l).
Proof.
  intros Hbody. induction l as [|x rest IH]; intros acc H.
  - cbn. rewrite app_nil_r. reflexivity.
  - cbn [forallb] in H. apply andb_prop in H. destruct H as [Hx Hrest].
    cbn [for_each flat_map]. rewrite Hbody by assumption.
    rewrite IH by assumption. rewrite app_assoc. reflexivity.
Qed.

(** How selection, mapping and universal tests go through the nested
    loops: [rows] is the outer list, [each] gives the inner one. *)
Section NestedLoops.
Variables Row Item Out : Type.
Variable each : Row -> list Item.

Lemma flat_map_select (keep : Item -> bool) (out : Item -> Out) :
  forall inner : list Item,
  flat_map (fun i => if keep i then [out i] else []) inner =
  map out (filter keep inner).
Proof.
  intros inner. induction inner as [|i inner IH]; cbn [flat_map filter].
  - reflexivity.
  - rewrite IH. destruct (keep i); reflexivity.
Qed.

Lemma filter_flat_map (keep : Item -> bool) :
  forall rows : list Row,
  filter keep (flat_map each rows) =
  flat_map (fun r => filter keep (each r)) rows.
Proof.
  intros rows. induction rows as [|r rows IH]; cbn [flat_map].
  - reflexivity.
  - rewrite filter_app. f_equal. exact IH.
Qed.

Lemma map_flat_map (out : Item -> Out) :
  forall rows : list Row,
  map out (flat_map each rows) = flat_map (fun r => map out (each r)) rows.
Proof.
  intros rows. induction rows as [|r rows IH]; cbn [flat_map].
  - reflexivity.
  - rewrite map_app. f_equal. exact IH.
Qed.

Lemma forallb_flat_map (test : Item -> bool) :
  forall rows : list Row,
  forallb test (flat_map each rows) =
  forallb (fun r => forallb test (each r)) rows.
Proof.
  intros rows. induction rows as [|r rows IH]; cbn [flat_map forallb].
  - reflexivity.
  - rewrite forallb_app. f_equal. exact IH.
Qed.

Lemma forallb_over_map (test : Item -> bool) (rename : Row -> Item) :
  forall rows : list Row,
  forallb test (map rename rows) = forallb (fun r => test (rename r)) rows.
Proof.
  intros rows. induction rows as [|r rows IH]; cbn [map forallb].
  - reflexivity.
  - f_equal. exact IH.
Qed.

End NestedLoops.

Lemma add_operation_spec (self : t) (path : pyval) (entry : pyval * pyval)
    (tools : list pyval) :
  wf_entry self (path, fst entry, snd entry) = true ->
  add_operation self path entry tools =
  Ok (tools ++
      if selected (path, fst entry, snd entry)
      then [descriptor_of self (path, fst entry, snd entry)]
      else []).
Proof.
  destruct entry as [method operation].
  unfold wf_entry, selected, tool_method, descriptor_of, wf_tool_operation.
  cbn [fst snd]. intros H. apply andb_prop in H. destruct H as [Hm H].
  destruct method as [| | |m| |]; try discriminate.
  unfold add_operation. cbn [lower bind text] in *.
  destruct (in_strs (str_lower m) tool_methods).
  - apply andb_prop in H. destruct H as [Hp Hwf].
    destruct path as [| | |p| |]; try discriminate.
    cbn [upper bind text]. rewrite generate_tool_spec by assumption.
    reflexivity.
  - rewrite app_nil_r. reflexivity.
Qed.

Lemma generate_tools_spec (self : t) :
  wf_paths self = true ->
  generate_tools self =
  Ok (map (descriptor_of self) (filter selected (operations self))).
Proof.
  unfold wf_paths. intros H.
  apply andb_prop in H. destruct H as [H Hops].
  apply andb_prop in H. destruct H as [Hpaths Hitems].
  unfold generate_tools. rewrite items_entries by assumption. cbn [bind].
  unfold operations in *.
  rewrite forallb_flat_map in Hops.
  rewrite filter_flat_map, map_flat_map.
  set (per_path := fun path_entry : pyval * pyval =>
         map (descriptor_of self)
           (filter selected
              (map (fun op_entry : pyval * pyval =>
                      (fst path_entry, fst op_entry, snd op_entry))
                   (entries (snd path_entry))))).
  apply (for_each_append (add_path self) per_path
           (fun path_entry =>
              is_dict (snd path_entry) &&
              forallb (wf_entry self)
                (map (fun op_entry : pyval * pyval =>
                        (fst path_entry, fst op_entry, snd op_entry))
                     (entries (snd path_entry))))).
  - intros [path path_item] acc Hok. cbn [fst snd] in Hok.
    apply andb_prop in Hok. destruct Hok as [Hitem Hall].
    unfold add_path, per_path. cbn [fst snd].
    rewrite items_entries by assumption. cbn [bind].
    rewrite <- flat_map_select.
    rewrite (flat_map_concat_map _ (map _ _)), map_map, <- flat_map_concat_map.
    apply (for_each_append (add_operation self path) _
             (fun entry => wf_entry self (path, fst entry, snd entry))).
    + intros entry acc' Hentry. apply add_operation_spec. assumption.
    + rewrite forallb_over_map in Hall. exact Hall.
  - clear per_path.
    induction (entries (paths self)) as [|pe rest IH]; [reflexivity|].
    cbn [forallb] in *.
    apply andb_prop in Hitems. destruct Hitems as [Hi Hitems].
    apply andb_prop in Hops. destruct Hops as [Ho Hops].
    rewrite Hi, Ho, IH by assumption. reflexivity.
Qed.

Lemma Forall2_map_right {A B : Type} (R : A -> B -> Prop) (g : A -> B)
    (l : list A) :
  (forall x, In x l -> R x (g x)) -> Forall2 R l (map g l).
Proof.
  induction l as [|x rest IH]; intros H; cbn [map]; constructor.
  - apply H. left. reflexivity.
  - apply IH. intros y Hy. apply H. right. assumption.
Qed.

(** C3, as the claim states it, fails: the operation under [head] gets no
    descriptor. *)
Lemma skipped_method_counterexample :
  wf_paths Examples.head_only_generator = true
  /\ operations Examples.head_only_generator =
       [(PStr "/ping", PStr "head", PDict [])]
  /\ generate_tools Examples.head_only_generator = Ok [].
Proof. repeat split. Qed.

(** C3, amended.  For every path template and every method key under it
    whose lower-case form is one of [get], [post], [put], [delete] and
    [patch], the pipeline produces exactly one descriptor, in document
    order, with that path, the method in upper case, the input schema of
    the operation and its request body; an entry under any other key is
    skipped and gets no descriptor.  (On ASCII path templates, where the
    model names what Python names, the list is given descriptor by
    descriptor.) *)
Theorem generate_tools_selected_methods (self : t) :
  wf_paths self = true ->
  exists tools : list pyval,
    generate_tools self = Ok tools
    /\ List.length tools = List.length (filter selected (operations self))
    /\ Forall2
         (fun op tool =>
            _generate_tool self (fst (fst op))
              (PStr (str_upper (text (snd (fst op))))) (snd op) = Ok tool
            /\ field tool "path" PNone = fst (fst op)
            /\ field tool "method" PNone =
                 PStr (str_upper (text (snd (fst op))))
            /\ field tool "input_schema" PNone = synthesized self (snd op)
            /\ field tool "request_body" PNone =
                 field (snd op) "requestBody" PNone)
         (filter selected (operations self)) tools
    /\ (forall op : pyval * pyval * pyval,
          selected op =
          in_strs (str_lower (text (snd (fst op))))
                  ["get"; "post"; "put"; "delete"; "patch"])
    /\ (ascii_paths self = true ->
        tools = map (descriptor_of self) (filter selected (operations self))).
Proof.
  intros Hwf.
  exists (map (descriptor_of self) (filter selected (operations self))).
  split; [apply generate_tools_spec; assumption|].
  split; [apply length_map|].
  split; [|split].
  - apply Forall2_map_right. intros [[path method] operation] Hin.
    apply filter_In in Hin. destruct Hin as [Hin Hsel].
    unfold wf_paths in Hwf. apply andb_prop in Hwf. destruct Hwf as [_ Hall].
    rewrite forallb_forall in Hall. specialize (Hall _ Hin).
    unfold wf_entry in Hall. rewrite Hsel in Hall.
    apply andb_prop in Hall. destruct Hall as [Hm Hop].
    unfold wf_tool_operation in Hop. apply andb_prop in Hop.
    destruct Hop as [Hp Hop]. cbn [fst snd] in *.
    destruct path as [| | |p| |]; try discriminate.
    unfold descriptor_of. cbn [fst snd text].
    rewrite generate_tool_spec by assumption.
    repeat split.
  - intros op. reflexivity.
  - intros _. reflexivity.
Qed.

Lemma generate_tools_selected_methods_witness :
  wf_paths Examples.generator = true
  /\ ascii_paths Examples.generator = true
  /\ exists tools : list pyval,
       generate_tools Examples.generator = Ok tools
       /\ List.length tools = 3
       /\ map (fun tool => field tool "name" PNone) tools =
          [PStr "updateUsers"; PStr "fetchUser"; PStr "getUseraccounts"]
       /\ map (fun tool => field tool "method" PNone) tools =
          [PStr "PUT"; PStr "GET"; PStr "GET"]
       /\ map (fun tool => field tool "path" PNone) tools =
          [PStr "/users/{id}"; PStr "/users/{id}"; PStr "/userAccounts"].
Proof.
  assert (Hwf : wf_paths Examples.generator = true) by (vm_compute; reflexivity).
  assert (Hascii : ascii_paths Examples.generator = true)
    by (vm_compute; reflexivity).
  split; [exact Hwf|]. split; [exact Hascii|].
  destruct (generate_tools_selected_methods Examples.generator Hwf)
    as (tools & Hgen & Hlen & _ & _ & Htools).
  exists tools. split; [exact Hgen|].
  rewrite (Htools Hascii). repeat split.
Defined.

(** *** The request configuration *)

Lemma request_config_of_tool (tool : pyval) (method : string) :
  is_dict tool = true ->
  has_field tool "method" = true ->
  field tool "method" PNone = PStr method ->
  _generate_request_config tool =
  Ok (if truthy (field tool "request_body" PNone) &&
         in_strs (str_upper method) body_methods
      then newline ^^ data_binding
      else "").
Proof.
  intros Hd Hm Hmethod. unfold _generate_request_config.
  rewrite get_field by assumption. cbn [bind].
  destruct (truthy (field tool "request_body" PNone)); cbn [andb bind].
  - rewrite (getitem_field tool "method" PNone) by assumption.
    rewrite Hmethod. cbn [bind upper].
    destruct (in_strs (str_upper method) body_methods); reflexivity.
  - reflexivity.
Qed.




(** An empty object under [requestBody] is no request body for the
    renderer, as it is none for the synthesizer. *)
Example empty_request_body_not_attached :
  (tool <- _generate_tool Examples.generator (PStr "/users") (PStr "POST")
             (Examples.obj [("requestBody", PDict [])]) ;;
   _generate_request_config tool) = Ok "".
Proof. reflexivity. Qed.

End ToolClaims.

(* ================================================================== *)
(** ** Claims about the authentication header *)

Section AuthClaims.
Import Py OpenAPIToMCP Spec.

Lemma auth_headers_loop_spec (schemes : dict) :
  forallb (fun kv => is_dict (snd kv)) schemes = true ->
  auth_headers_loop schemes =
  Ok (match first_api_key schemes with
      | Some (_, scheme) =>
          auth_header_line (field scheme "name" (PStr "X-API-Key"))
      | None => ""
      end).
Proof.
  induction schemes as [|[scheme_name scheme] rest IH]; intros H.
  - reflexivity.
  - cbn [forallb snd] in H. apply andb_prop in H. destruct H as [Hd Hrest].
    cbn [auth_headers_loop]. rewrite get_field by assumption. cbn [bind].
    unfold first_api_key. cbn [find snd]. unfold is_api_key at 1.
    destruct (eq_str (field scheme "type" PNone) "apiKey").
    + rewrite get_field by assumption. reflexivity.
    + apply IH. assumption.
Qed.

(** C8.  The authentication fragment of the rendered request
    configuration is one header line naming the header of the first
    scheme of type ['apiKey'], in the order of [securitySchemes], bound to
    [API_KEY]; it is the empty string when no scheme has that type.  The
    header is the scheme's [name], and [X-API-Key] for a scheme without
    name. *)
Theorem auth_header_first_api_key (self : t) :
  wf_security self = true ->
  exists (security_info : pyval) (fragment : string),
    get_security_info self = Ok security_info
    /\ _generate_auth_headers security_info = Ok fragment
    /\ (forall (scheme_name scheme : pyval) (before after : dict),
          entries (security_schemes self) =
            before ++ (scheme_name, scheme) :: after ->
          is_api_key scheme = true ->
          forallb (fun kv => negb (is_api_key (snd kv))) before = true ->
          fragment = "'" ^^ str (field scheme "name" (PStr "X-API-Key")) ^^
                     "': API_KEY,")
    /\ (forallb (fun kv => negb (is_api_key (snd kv)))
               (entries (security_schemes self)) = true ->
        fragment = "").
Proof.
  unfold wf_security. intros H.
  apply andb_prop in H. destruct H as [H Hall].
  apply andb_prop in H. destruct H as [Hc Hs].
  eexists. eexists.
  split.
  { unfold get_security_info. rewrite get_field by assumption. reflexivity. }
  split.
  { unfold _generate_auth_headers.
    rewrite get_field by reflexivity. cbn [bind].
    change (field _ "schemes" (PDict [])) with (security_schemes self).
    rewrite items_entries by assumption. cbn [bind].
    apply auth_headers_loop_spec. assumption. }
  split.
  - intros scheme_name scheme before after E Hkey Hbefore.
    rewrite E. unfold first_api_key.
    assert (Hfind : find (fun kv => is_api_key (snd kv))
                      (before ++ (scheme_name, scheme) :: after) =
                    Some (scheme_name, scheme)).
    { clear E. induction before as [|b rest IH]; cbn [app find].
      - cbn [snd]. rewrite Hkey. reflexivity.
      - cbn [forallb] in Hbefore. apply andb_prop in Hbefore.
        destruct Hbefore as [Hb Hrest]. apply negb_true_iff in Hb.
        rewrite Hb. apply IH. assumption. }
    rewrite Hfind. reflexivity.
  - intros Hnone. unfold first_api_key.
    assert (Hfind : find (fun kv => is_api_key (snd kv))
                      (entries (security_schemes self)) = None).
    { induction (entries (security_schemes self)) as [|b rest IH];
        [reflexivity|].
      cbn [forallb] in Hnone, Hall.
      apply andb_prop in Hnone. destruct Hnone as [Hb Hrest].
      apply andb_prop in Hall. destruct Hall as [_ Hall].
      apply negb_true_iff in Hb. cbn [find]. rewrite Hb.
      apply IH; assumption. }
    rewrite Hfind. reflexivity.
Qed.

Lemma auth_header_first_api_key_witness :
  wf_security Examples.generator = true
  /\ exists security_info : pyval,
       get_security_info Examples.generator = Ok security_info
       /\ _generate_auth_headers security_info = Ok "'X-Api-Key': API_KEY,".
Proof.
  split; [vm_compute; reflexivity|].
  destruct (auth_header_first_api_key Examples.generator)
    as (security_info & fragment & Hinfo & Hgen & Hfirst & _).
  - vm_compute. reflexivity.
  - exists security_info. split; [exact Hinfo|]. rewrite Hgen. f_equal.
    apply (Hfirst (PStr "key")
             (Examples.obj [("type", PStr "apiKey"); ("in", PStr "header");
                            ("name", PStr "X-Api-Key")])
             [(PStr "basic", Examples.obj [("type", PStr "http")])]
             [(PStr "other", Examples.obj [("type", PStr "apiKey");
                                           ("name", PStr "X-Other")])]);
      vm_compute; reflexivity.
Defined.

(** Without any scheme the fragment is empty. *)
Example no_scheme_no_header :
  (security_info <- get_security_info Examples.head_only_generator ;;
   _generate_auth_headers security_info) = Ok "".
Proof. reflexivity. Qed.

End AuthClaims.

(* ================================================================== *)
(** ** Claims about the interface text generator *)

Section InterfaceClaims.
Import Py OpenAPIToMCP Spec.

(** The equation of [_get_typescript_type] in the shape of the source:
    the type of an array is the type of its [items], of [{}] when it has
    none. *)
Lemma _get_typescript_type_unfold (schema : pyval) :
  _get_typescript_type schema =
  (schema_type <- get schema "type" (PStr "any") ;;
   if eq_str schema_type "string" then
     enum_values <- get schema "enum" PNone ;;
     if truthy enum_values then
       vals <- iter enum_values ;;
       Ok (str_join " | " (map enum_literal vals))
     else Ok "string"
   else if eq_str schema_type "integer" || eq_str schema_type "number" then
     Ok "number"
   else if eq_str schema_type "boolean" then Ok "boolean"
   else if eq_str schema_type "array" then
     items <- get schema "items" (PDict []) ;;
     item_type <- _get_typescript_type items ;;
     Ok (item_type ^^ "[]")
   else if eq_str schema_type "object" then Ok "any"
   else Ok "any").
Proof.
  destruct schema as [| | | | |m]; try reflexivity.
  cbn [_get_typescript_type get].
  destruct (lookup m (PStr "type")) as [schema_type|]; cbn [bind].
  - destruct (eq_str schema_type "string").
    { destruct (lookup m (PStr "enum")); reflexivity. }
    destruct (eq_str schema_type "integer" || eq_str schema_type "number");
      [reflexivity|].
    destruct (eq_str schema_type "boolean"); [reflexivity|].
    destruct (eq_str schema_type "array"); [|reflexivity].
    f_equal.
    induction m as [|[k v] rest IH]; [reflexivity|].
    cbn [lookup]. destruct (key_eq k (PStr "items")); [reflexivity|].
    exact IH.
  - reflexivity.
Qed.

Lemma typed_schema_returns :
  forall schema : pyval,
  typed_schema schema = true ->
  exists ty : string, _get_typescript_type schema = Ok ty.
Proof.
  fix IH 1. intros schema.
  destruct schema as [| | | | |m]; try discriminate.
  cbn [typed_schema]. intros H. apply andb_prop in H.
  destruct H as [Henum Hitems].
  assert (Hinner :
    exists ty : string,
      (fix items_type (l : dict) : result string :=
         match l with
         | [] => Ok "any"
         | (k, v) :: rest =>
             if key_eq k (PStr "items") then _get_typescript_type v
             else items_type rest
         end) m = Ok ty).
  { clear Henum. revert Hitems.
    induction m as [|[k v] rest IHm]; intros Hitems.
    - eexists. reflexivity.
    - destruct (key_eq k (PStr "items")).
      + apply IH. exact Hitems.
      + apply IHm. exact Hitems. }
  destruct Hinner as (item_type & Hinner).
  cbn [_get_typescript_type]. rewrite Hinner. cbn [bind].
  destruct (eq_str _ "string").
  { destruct (lookup m (PStr "enum")) as [enum_values|]; cbn [truthy].
    - destruct enum_values as [| | | |l|]; try discriminate.
      cbn [iter bind]. destruct (truthy (PList l)); eexists; reflexivity.
    - eexists. reflexivity. }
  destruct (_ || _); [eexists; reflexivity|].
  destruct (eq_str _ "boolean"); [eexists; reflexivity|].
  destruct (eq_str _ "array"); [eexists; reflexivity|].
  destruct (eq_str _ "object"); eexists; reflexivity.
Qed.

Lemma typed_schema_expression (schema : pyval) :
  typed_schema schema = true ->
  _get_typescript_type schema = Ok (type_expression schema).
Proof.
  intros H. destruct (typed_schema_returns schema H) as (ty & E).
  unfold type_expression. rewrite E. reflexivity.
Qed.

Lemma typed_schema_dict (schema : pyval) :
  typed_schema schema = true -> is_dict schema = true.
Proof. destruct schema; try discriminate; reflexivity. Qed.

Lemma interface_property_spec (required : list pyval) (prop : pyval * pyval)
    (lines : list string) :
  typed_schema (snd prop) = true ->
  interface_property (PList required) prop lines =
  Ok (lines ++ property_lines required prop).
Proof.
  destruct prop as [prop_name prop_def]. cbn [snd]. intros Htyped.
  unfold interface_property, property_lines, description_lines, optional_mark.
  cbn [fst snd].
  rewrite typed_schema_expression by assumption. cbn [bind contains].
  rewrite get_field by (apply typed_schema_dict; assumption). cbn [bind].
  destruct (truthy (field prop_def "description" (PStr ""))).
  - rewrite <- app_assoc. reflexivity.
  - reflexivity.
Qed.

Lemma interface_properties_loop (required : list pyval) (props : dict) :
  forallb (fun kv => typed_schema (snd kv)) props = true ->
  forall lines : list string,
  for_each props lines (interface_property (PList required)) =
  Ok (lines ++ flat_map (property_lines required) props).
Proof.
  intros H lines.
  apply (for_each_append (interface_property (PList required))
           (property_lines required)
           (fun kv => typed_schema (snd kv))); [|assumption].
  intros prop acc Hprop. apply interface_property_spec. assumption.
Qed.

Lemma interface_lines_spec (name schema : pyval) :
  wf_interface_schema schema = true ->
  interface_lines name schema =
  Ok (if is_object schema then Some (interface_block name schema) else None).
Proof.
  unfold wf_interface_schema. intros H.
  apply andb_prop in H. destruct H as [Hd H].
  unfold interface_lines. rewrite (get_field schema "type") by assumption.
  cbn [bind]. fold (is_object schema).
  destruct (is_object schema); cbn [negb]; [|reflexivity].
  apply andb_prop in H. destruct H as [H Hreq].
  apply andb_prop in H. destruct H as [Hprops Htyped].
  rewrite (get_field schema "properties") by assumption. cbn [bind].
  rewrite (get_field schema "required") by assumption. cbn [bind].
  rewrite items_entries by assumption. cbn [bind].
  destruct (field schema "required" (PList [])) as [| | | |required|] eqn:E;
    try discriminate.
  rewrite interface_properties_loop by assumption. cbn [bind].
  unfold interface_block. rewrite E. reflexivity.
Qed.

Lemma generate_interface_spec (name schema : pyval) :
  wf_interface_schema schema = true ->
  _generate_interface name schema = Ok (rendered name schema).
Proof.
  intros H. unfold _generate_interface, rendered.
  rewrite interface_lines_spec by assumption. cbn [bind].
  destruct (is_object schema); reflexivity.
Qed.

(** An interface block is never the empty text. *)
Lemma rendered_object_truthy (name schema : pyval) :
  is_object schema = true -> truthy (PStr (rendered name schema)) = true.
Proof.
  intros H. unfold rendered, interface_block, interface_header. rewrite H.
  unfold str_join. cbn [String.concat].
  destruct (flat_map _ _ ++ ["}"]) eqn:E.
  - destruct (flat_map _ _); discriminate.
  - reflexivity.
Qed.

Lemma generate_typescript_interfaces_spec (self : t) :
  wf_registry self = true ->
  generate_typescript_interfaces self =
  Ok (str_join (newline ^^ newline)
        (map (fun kv => str_join newline (interface_block (fst kv) (snd kv)))
             (filter (fun kv => is_object (snd kv)) (entries (registry self))))).
Proof.
  unfold wf_registry. intros H.
  apply andb_prop in H. destruct H as [H Hall].
  apply andb_prop in H. destruct H as [Hc Hr].
  unfold generate_typescript_interfaces.
  rewrite get_field by assumption. cbn [bind]. fold (registry self).
  rewrite items_entries by assumption. cbn [bind].
  rewrite (for_each_append _
             (fun kv => if is_object (snd kv)
                        then [str_join newline (interface_block (fst kv) (snd kv))]
                        else [])
             (fun kv => wf_interface_schema (snd kv))).
  - cbn [bind app]. rewrite flat_map_select. reflexivity.
  - intros [schema_name schema_def] acc Hwf. cbn [fst snd] in *.
    rewrite generate_interface_spec by assumption. cbn [bind].
    destruct (is_object schema_def) eqn:E.
    + rewrite rendered_object_truthy by assumption.
      unfold rendered. rewrite E. reflexivity.
    + unfold rendered. rewrite E. cbn [truthy String.eqb negb].
      rewrite app_nil_r. reflexivity.
  - assumption.
Qed.

(** Membership in a required list of strings. *)
Lemma required_mark (required : list string) (prop_name : string) :
  optional_mark (map PStr required) (PStr prop_name) =
  if in_dec string_dec prop_name required then "" else "?".
Proof.
  unfold optional_mark.
  destruct (in_dec string_dec prop_name required) as [Hin|Hout].
  - replace (existsb _ _) with true; [reflexivity|].
    symmetry. apply existsb_exists. exists (PStr prop_name).
    split; [apply in_map; assumption | apply String.eqb_refl].
  - replace (existsb _ _) with false; [reflexivity|].
    symmetry. apply not_true_is_false. intros H.
    apply existsb_exists in H. destruct H as (x & Hx & E).
    apply in_map_iff in Hx. destruct Hx as (r & <- & Hr).
    cbn [key_eq] in E. apply String.eqb_eq in E. subst. contradiction.
Qed.

(** C6.  The rendered interfaces are the blocks of the schemas of the
    registry whose type is exactly ['object'], in the order of the
    registry; a schema of another type adds nothing.  The block of an
    object schema is its header, then for each property in declaration
    order its description line, if it has a description, and exactly one
    field line, marked with [?] iff the property's name is not in the
    schema's own required list, then the closing brace. *)
Theorem interfaces_for_object_schemas (self : t) :
  wf_registry self = true ->
  generate_typescript_interfaces self =
    Ok (str_join (newline ^^ newline)
          (map (fun kv => str_join newline (interface_block (fst kv) (snd kv)))
               (filter (fun kv => is_object (snd kv)) (entries (registry self)))))
  /\ (forall name schema : pyval,
        In (name, schema) (entries (registry self)) ->
        (is_object schema = true ->
         _generate_interface name schema =
         Ok (str_join newline
               (interface_header name ::
                flat_map
                  (fun prop =>
                     description_lines (snd prop) ++
                     [field_line (fst prop)
                        (if existsb (key_eq (fst prop))
                                    (elements (field schema "required" (PList [])))
                         then "" else "?")
                        (type_expression (snd prop))])
                  (entries (field schema "properties" (PDict []))) ++
                ["}"])))
        /\ (is_object schema = false -> _generate_interface name schema = Ok ""))
  /\ (forall (required : list string) (prop_name : string),
        optional_mark (map PStr required) (PStr prop_name) =
        if in_dec string_dec prop_name required then "" else "?").
Proof.
  intros Hwf.
  split; [apply generate_typescript_interfaces_spec; assumption|].
  split; [|exact required_mark].
  intros name schema Hin.
  assert (Hschema : wf_interface_schema schema = true).
  { unfold wf_registry in Hwf. apply andb_prop in Hwf. destruct Hwf as [_ Hall].
    rewrite forallb_forall in Hall. apply (Hall _ Hin). }
  rewrite generate_interface_spec by assumption. unfold rendered.
  split; intros ->; reflexivity.
Qed.

Lemma interfaces_for_object_schemas_witness :
  wf_registry Examples.generator = true
  /\ generate_typescript_interfaces Examples.generator =
       Ok (str_join newline
             ["interface User {"; "  id: number;"; "  nick?: any;"; "}"]).
Proof.
  split; [vm_compute; reflexivity|].
  destruct (interfaces_for_object_schemas Examples.generator) as (H & _).
  - vm_compute. reflexivity.
  - rewrite H. vm_compute. reflexivity.
Defined.

End InterfaceClaims.

(* ================================================================== *)
(** ** Where the entries of the input schema come from *)

Section SchemaSources.
Import Py OpenAPIToMCP Spec.

Lemma last_write_some (steps : dict) (k v : pyval) :
  last_write steps k = Some v ->
  exists k', In (k', v) steps /\ key_eq k' k = true.
Proof.
  unfold last_write.
  induction steps as [|[k' v'] rest IH] using rev_ind; [discriminate|].
  rewrite fold_left_app. cbn [fold_left]. unfold write_step at 1. cbn [fst snd].
  destruct (key_eq k' k) eqn:E; intros H.
  - inversion H. subst. exists k'. split; [|assumption].
    apply in_or_app. right. left. reflexivity.
  - destruct (IH H) as (k0 & Hin & Hk). exists k0. split; [|assumption].
    apply in_or_app. left. assumption.
Qed.

Lemma last_write_found (steps : dict) (k k' v : pyval) :
  In (k', v) steps -> key_eq k' k = true ->
  exists w, last_write steps k = Some w.
Proof.
  unfold last_write.
  induction steps as [|[k0 v0] rest IH] using rev_ind; intros Hin Hk.
  - destruct Hin.
  - rewrite fold_left_app. cbn [fold_left]. unfold write_step at 1. cbn [fst snd].
    apply in_app_or in Hin. destruct Hin as [Hin|[Hin|[]]].
    + destruct (key_eq k0 k); [eauto|]. apply IH; assumption.
    + inversion Hin. subst. rewrite Hk. eauto.
Qed.

Lemma param_properties_in (location : string) (operation k v : pyval) :
  In (k, v) (param_properties location operation) ->
  exists param,
    In param (parameters operation)
    /\ in_location location param = true
    /\ k = param_name param /\ v = param_property param.
Proof.
  unfold param_properties. intros H. apply in_map_iff in H.
  destruct H as (param & E & Hin). apply filter_In in Hin.
  inversion E. subst. exists param. tauto.
Qed.

(** X1.  Every property of the synthesized input schema is the entry of a
    parameter located in the path or in the query, or of a property of the
    object body schema, under a name equal to the key; every required
    name is that of such a parameter marked required, or stands in the
    body's required list.  Parameters in the header or in a cookie leave
    no trace. *)
Theorem input_schema_sources (self : t) (operation : pyval) :
  wf_operation self operation = true ->
  exists (properties : dict) (required : list pyval),
    _generate_input_schema self operation = Ok (input_schema properties required)
    /\ (forall name entry : pyval,
          lookup properties name = Some entry ->
          (exists param,
             In param (parameters operation)
             /\ located param = true
             /\ key_eq (param_name param) name = true
             /\ entry = param_property param)
          \/ (exists k prop_def,
                In (k, prop_def) (body_entries self operation)
                /\ key_eq k name = true
                /\ entry = body_property prop_def))
    /\ (forall name : pyval,
          In name required ->
          (exists param,
             In param (parameters operation)
             /\ located param = true
             /\ marked_required param = true
             /\ name = param_name param)
          \/ In name (body_required self operation)).
Proof.
  intros Hwf.
  exists (write_all [] (merge_steps self operation)),
         (merged_required self operation).
  split; [exact (generate_input_schema_spec self operation Hwf)|].
  split.
  - intros name entry H. rewrite lookup_write_all in H. cbn [lookup] in H.
    assert (Hlast : last_write (merge_steps self operation) name = Some entry).
    { destruct (last_write (merge_steps self operation) name);
        [assumption | discriminate]. }
    apply last_write_some in Hlast. destruct Hlast as (k & Hin & Hk).
    unfold merge_steps in Hin.
    apply in_app_or in Hin. destruct Hin as [Hin|Hin];
      [|apply in_app_or in Hin; destruct Hin as [Hin|Hin]].
    + apply param_properties_in in Hin.
      destruct Hin as (param & Hp & Hloc & -> & ->).
      left. exists param. unfold located. rewrite Hloc. auto.
    + apply param_properties_in in Hin.
      destruct Hin as (param & Hp & Hloc & -> & ->).
      left. exists param. unfold located. rewrite Hloc, orb_true_r. auto.
    + right. unfold body_properties, object_properties in Hin.
      unfold body_entries.
      destruct (is_object (body_schema self operation)); [|destruct Hin].
      apply in_map_iff in Hin. destruct Hin as ([k0 d] & E & Hin).
      cbn [fst snd] in E. inversion E. subst. exists k, d. auto.
  - intros name H. unfold merged_required in H.
    assert (Hparam : forall location n,
              In n (param_required location operation) ->
              exists param,
                In param (parameters operation)
                /\ in_location location param = true
                /\ marked_required param = true /\ n = param_name param).
    { intros location n Hn. unfold param_required in Hn.
      apply in_map_iff in Hn. destruct Hn as (param & <- & Hin).
      apply filter_In in Hin. destruct Hin as [Hin Hb].
      apply andb_prop in Hb. exists param. tauto. }
    apply in_app_or in H. destruct H as [H|H];
      [|apply in_app_or in H; destruct H as [H|H]].
    + destruct (Hparam "path" name H) as (param & Hp & Hloc & Hr & ->).
      left. exists param. unfold located. rewrite Hloc. auto.
    + destruct (Hparam "query" name H) as (param & Hp & Hloc & Hr & ->).
      left. exists param. unfold located. rewrite Hloc, orb_true_r. auto.
    + right. assumption.
Qed.

Lemma input_schema_sources_witness :
  wf_operation Examples.generator Examples.put_user = true
  /\ exists (properties : dict) (required : list pyval),
       _generate_input_schema Examples.generator Examples.put_user =
         Ok (input_schema properties required)
       /\ lookup properties (PStr "X-Trace") = None.
Proof.
  assert (Hwf : wf_operation Examples.generator Examples.put_user = true)
    by (vm_compute; reflexivity).
  split; [exact Hwf|].
  destruct (input_schema_sources Examples.generator Examples.put_user Hwf)
    as (properties & required & Hgen & Hprops & _).
  exists properties, required. split; [exact Hgen|].
  destruct (lookup properties (PStr "X-Trace")) as [entry|] eqn:E;
    [|reflexivity].
  exfalso. destruct (Hprops _ _ E) as [(param & Hin & Hloc & Hk & _) |
                                       (k & prop_def & Hin & Hk & _)].
  - vm_compute in Hin.
    destruct Hin as [<-|[<-|[<-|[]]]]; vm_compute in Hloc, Hk; discriminate.
  - vm_compute in Hin.
    destruct Hin as [Hin|[Hin|[]]]; inversion Hin; subst;
      vm_compute in Hk; discriminate.
Defined.

Lemma wf_parameters_in (self : t) (operation param : pyval) :
  wf_operation self operation = true ->
  In param (parameters operation) -> wf_param param = true.
Proof.
  unfold wf_operation, wf_parameters. intros H Hin.
  apply andb_prop in H. destruct H as [H _].
  apply andb_prop in H. destruct H as [_ H].
  apply andb_prop in H. destruct H as [_ H].
  rewrite forallb_forall in H. apply H. assumption.
Qed.

(** X2.  Nothing the synthesizer reads is lost: every parameter located
    in the path or in the query has a property under its name (its own
    entry, or the one a later step wrote over it), every property of an
    object body schema has its entry, every such parameter marked
    required and every name of the body's required list is required. *)
Theorem input_schema_covers (self : t) (operation : pyval) :
  wf_operation self operation = true ->
  exists (properties : dict) (required : list pyval),
    _generate_input_schema self operation = Ok (input_schema properties required)
    /\ (forall param : pyval,
          In param (parameters operation) -> located param = true ->
          (exists entry, lookup properties (param_name param) = Some entry)
          /\ (marked_required param = true -> In (param_name param) required))
    /\ (forall k prop_def : pyval,
          In (k, prop_def) (body_entries self operation) ->
          exists entry, lookup properties k = Some entry)
    /\ (forall name : pyval,
          In name (body_required self operation) -> In name required).
Proof.
  intros Hwf.
  exists (write_all [] (merge_steps self operation)),
         (merged_required self operation).
  split; [exact (generate_input_schema_spec self operation Hwf)|].
  assert (Hfound : forall k k' v,
            In (k', v) (merge_steps self operation) -> key_eq k' k = true ->
            exists entry,
              lookup (write_all [] (merge_steps self operation)) k = Some entry).
  { intros k k' v Hin Hk. rewrite lookup_write_all.
    destruct (last_write_found _ k k' v Hin Hk) as (w & ->). eauto. }
  split; [|split].
  - intros param Hin Hloc.
    pose proof (wf_parameters_in self operation param Hwf Hin) as Hp.
    unfold located in Hloc. apply orb_prop in Hloc.
    assert (Hnamed : hashable (param_name param) = true).
    { destruct Hloc as [Hloc|Hloc].
      - apply (wf_param_located "path" param); auto.
      - apply (wf_param_located "query" param); auto. }
    split.
    + apply (Hfound _ (param_name param) (param_property param));
        [|apply key_eq_refl; assumption].
      unfold merge_steps, param_properties.
      destruct Hloc as [Hloc|Hloc].
      * apply in_or_app. left.
        apply (in_map (fun p => (param_name p, param_property p))).
        apply filter_In. auto.
      * apply in_or_app. right. apply in_or_app. left.
        apply (in_map (fun p => (param_name p, param_property p))).
        apply filter_In. auto.
    + intros Hreq. unfold merged_required, param_required.
      destruct Hloc as [Hloc|Hloc].
      * apply in_or_app. left. apply in_map. apply filter_In.
        rewrite Hloc, Hreq. auto.
      * apply in_or_app. right. apply in_or_app. left.
        apply in_map. apply filter_In. rewrite Hloc, Hreq. auto.
  - intros k prop_def Hin. unfold body_entries in Hin.
    destruct (is_object (body_schema self operation)) eqn:Hobj; [|destruct Hin].
    assert (Hk : hashable k = true).
    { unfold wf_operation, wf_request_body in Hwf.
      apply andb_prop in Hwf. destruct Hwf as [_ Hbody].
      unfold body_schema in Hobj, Hin.
      destruct (truthy (field operation "requestBody" PNone));
        [|discriminate].
      apply andb_prop in Hbody. destruct Hbody as [_ Hobject].
      unfold wf_object_schema in Hobject. rewrite Hobj in Hobject.
      apply andb_prop in Hobject. destruct Hobject as [_ Hobject].
      apply andb_prop in Hobject. destruct Hobject as [Hobject _].
      apply andb_prop in Hobject. destruct Hobject as [_ Hall].
      rewrite forallb_forall in Hall. specialize (Hall _ Hin).
      unfold wf_property in Hall. apply andb_prop in Hall. tauto. }
    apply (Hfound _ k (body_property prop_def));
      [|apply key_eq_refl; assumption].
    unfold merge_steps, body_properties, object_properties. rewrite Hobj.
    apply in_or_app. right. apply in_or_app. right.
    apply (in_map (fun kv => (fst kv, body_property (snd kv))) _ (k, prop_def)).
    assumption.
  - intros name Hin. unfold merged_required.
    apply in_or_app. right. apply in_or_app. right. assumption.
Qed.

Lemma input_schema_covers_witness :
  wf_operation Examples.generator Examples.put_user = true
  /\ exists (properties : dict) (required : list pyval),
       _generate_input_schema Examples.generator Examples.put_user =
         Ok (input_schema properties required)
       /\ (exists entry, lookup properties (PStr "nick") = Some entry)
       /\ In (PStr "id") required.
Proof.
  assert (Hwf : wf_operation Examples.generator Examples.put_user = true)
    by (vm_compute; reflexivity).
  split; [exact Hwf|].
  destruct (input_schema_covers Examples.generator Examples.put_user Hwf)
    as (properties & required & Hgen & _ & Hbody & Hreq).
  exists properties, required. split; [exact Hgen|]. split.
  - apply (Hbody (PStr "nick") (PDict [])). vm_compute. auto.
  - apply Hreq. vm_compute. auto.
Defined.

(** X3.  A request body that brings no object schema adds nothing: so
    when the resolved schema's type is not ['object'], and so when the
    body has no entry for [application/json], whatever other content
    types it declares. *)
Theorem body_without_object_schema (self : t) (operation : pyval) :
  wf_operation self operation = true ->
  (is_object (body_schema self operation) = false ->
   _generate_input_schema self operation = Ok (parameters_only operation))
  /\ (has_field (field (field operation "requestBody" PNone) "content" (PDict []))
                "application/json" = false ->
      _generate_input_schema self operation = Ok (parameters_only operation)).
Proof.
  intros Hwf.
  assert (Hgeneral :
    is_object (body_schema self operation) = false ->
    _generate_input_schema self operation = Ok (parameters_only operation)).
  { intros Hobj. rewrite (generate_input_schema_spec self operation Hwf).
    unfold synthesized, parameters_only, merge_steps, merged_required,
      body_properties, body_required, object_properties, object_required.
    rewrite Hobj, !app_nil_r. reflexivity. }
  split; [exact Hgeneral|].
  intros Habsent. apply Hgeneral. unfold body_schema.
  destruct (truthy (field operation "requestBody" PNone)); [|reflexivity].
  unfold declared_body_schema.
  rewrite (field_absent _ "application/json") by assumption.
  reflexivity.
Qed.

Lemma body_without_object_schema_witness :
  wf_operation Examples.generator
    (Examples.obj
       [("requestBody",
         Examples.obj
           [("content",
             Examples.obj
               [("multipart/form-data",
                 Examples.obj [("schema", Examples.user_schema)])])])]) = true
  /\ _generate_input_schema Examples.generator
       (Examples.obj
          [("requestBody",
            Examples.obj
              [("content",
                Examples.obj
                  [("multipart/form-data",
                    Examples.obj [("schema", Examples.user_schema)])])])])
     = Ok (input_schema [] []).
Proof.
  split; [vm_compute; reflexivity|].
  refine (proj2 (body_without_object_schema Examples.generator _ _) _);
    vm_compute; reflexivity.
Defined.

End SchemaSources.

(* ================================================================== *)
(** ** How a pointer is resolved *)

Section RefResolution.
Import Py OpenAPIToMCP Spec.

Lemma str_split_app (sep : ascii) (a b : string) :
  str_split sep (a ^^ String sep b) = str_split sep a ++ str_split sep b.
Proof.
  induction a as [|c rest IH]; cbn [String.append str_split].
  - rewrite Ascii.eqb_refl. reflexivity.
  - rewrite IH. destruct (Ascii.eqb c sep); [reflexivity|].
    destruct (str_split_cons sep rest) as (piece & pieces & ->).
    reflexivity.
Qed.

Lemma str_split_whole (sep : ascii) (s : string) :
  no_char sep s = true -> str_split sep s = [s].
Proof.
  induction s as [|c rest IH]; intros H; [reflexivity|].
  cbn [no_char] in H. apply andb_prop in H. destruct H as [Hc Hrest].
  apply negb_true_iff in Hc. cbn [str_split]. rewrite Hc, IH by assumption.
  reflexivity.
Qed.

Lemma ref_name_last (front name : string) :
  no_char "/" name = true -> ref_name (front ^^ String "/" name) = name.
Proof.
  intros H. unfold ref_name.
  rewrite str_split_app, (str_split_whole "/" name) by assumption.
  apply last_last.
Qed.

(** X4.  A pointer with the expected prefix is resolved by its text after
    the last slash alone: whatever stands between the prefix and that
    name, and whatever the node holds next to the [$ref], the body schema
    becomes the registry's entry of that name, and the empty schema when
    the registry has none. *)
Theorem ref_resolved_by_last_segment (self : t) (node : dict)
    (front name : string) :
  lookup node (PStr "$ref") = Some (PStr (front ^^ String "/" name)) ->
  str_startswith (front ^^ String "/" name) "#/components/schemas/" = true ->
  no_char "/" name = true ->
  is_dict (components self) = true ->
  is_dict (registry self) = true ->
  resolve_body_ref self (PDict node) =
  Ok (field (registry self) name (PDict [])).
Proof.
  intros Href Hprefix Hname Hc Hr.
  rewrite resolve_body_ref_spec.
  - unfold resolved. cbn [field]. rewrite Href.
    fold ref_prefix in Hprefix. rewrite Hprefix, ref_name_last by assumption.
    reflexivity.
  - unfold wf_ref. cbn [is_dict has_field field andb]. rewrite Href.
    fold ref_prefix in Hprefix. rewrite Hprefix, Hc, Hr. reflexivity.
Qed.

Lemma ref_resolved_by_last_segment_witness :
  resolve_body_ref Examples.generator
    (PDict [(PStr "type", PStr "string");
            (PStr "$ref", PStr "#/components/schemas/nested/deeper/User")])
  = Ok Examples.user_schema.
Proof.
  apply (ref_resolved_by_last_segment Examples.generator
           [(PStr "type", PStr "string");
            (PStr "$ref", PStr "#/components/schemas/nested/deeper/User")]
           "#/components/schemas/nested/deeper" "User");
    vm_compute; reflexivity.
Defined.

End RefResolution.

(* ================================================================== *)
(** ** Names that collide *)

Section NameCollision.
Import Py OpenAPIToMCP Spec.

Lemma append_empty (s : string) : s ^^ "" = s.
Proof.
  induction s as [|c rest IH]; [reflexivity|].
  cbn [String.append]. rewrite IH. reflexivity.
Qed.

(** Text without an opening brace goes through the stripping as it is. *)
Lemma strip_plain_prefix (a b : string) :
  no_char "{" a = true ->
  Re.strip_params (a ^^ b) = a ^^ Re.strip_params b.
Proof.
  unfold Re.strip_params.
  induction a as [|c rest IH]; intros H; [reflexivity|].
  cbn [no_char] in H. apply andb_prop in H. destruct H as [Hc Hrest].
  apply negb_true_iff in Hc.
  cbn [String.append Re.sub_from Re.param_match]. rewrite Hc.
  rewrite IH by assumption. reflexivity.
Qed.

Lemma segments_trailing_param (path name : string) :
  no_char "{" path = true -> name <> "" -> no_char "}" name = true ->
  segments (path ^^ String "/" (String "{" (name ^^ "}"))) = segments path.
Proof.
  intros Hpath Hne Hname. unfold segments.
  rewrite strip_plain_prefix by assumption.
  rewrite strip_slash_head.
  change (name ^^ "}") with (name ^^ String "}" "").
  rewrite strip_param_head by assumption.
  change (Re.strip_params "") with "".
  rewrite str_split_app, filter_app. cbn [str_split filter nonempty].
  cbn [String.eqb negb]. rewrite app_nil_r.
  rewrite <- (append_empty path) at 2.
  rewrite strip_plain_prefix by assumption.
  change (Re.strip_params "") with "". rewrite append_empty. reflexivity.
Qed.

(** X5.  A trailing path parameter does not tell two operations apart:
    on a path without braces, and for any method but POST, the operation
    on [path/{name}] gets the very name of the operation on [path]. *)
Theorem trailing_param_same_name (path name method : string) :
  no_char "{" path = true ->
  name <> "" ->
  no_char "}" name = true ->
  str_lower method <> "post" ->
  _generate_operation_id (PStr (path ^^ "/{" ^^ name ^^ "}")) (PStr method) =
  _generate_operation_id (PStr path) (PStr method).
Proof.
  intros Hpath Hne Hname Hmethod.
  rewrite !generate_operation_id_spec. unfold synthesized_name.
  change (path ^^ "/{" ^^ name ^^ "}")
    with (path ^^ String "/" (String "{" (name ^^ "}"))).
  rewrite segments_trailing_param by assumption.
  assert (Hverb : forall p q : string, verb p method = verb q method).
  { intros p q. unfold verb. cbn zeta.
    apply String.eqb_neq in Hmethod. rewrite Hmethod. reflexivity. }
  rewrite (Hverb _ path). reflexivity.
Qed.

Lemma trailing_param_same_name_witness :
  _generate_operation_id (PStr "/users/{id}") (PStr "GET") =
  _generate_operation_id (PStr "/users") (PStr "GET").
Proof.
  apply (trailing_param_same_name "/users" "id" "GET");
    try reflexivity; discriminate.
Defined.

End NameCollision.

(* ================================================================== *)
(** ** The schemes the authentication header does not read *)

Section AuthOrder.
Import Py OpenAPIToMCP Spec.

Lemma auth_headers_loop_passes (before rest : dict) :
  forallb (fun kv => is_dict (snd kv) && negb (is_api_key (snd kv))) before
    = true ->
  auth_headers_loop (before ++ rest) = auth_headers_loop rest.
Proof.
  induction before as [|[scheme_name scheme] more IH]; intros H; [reflexivity|].
  cbn [forallb snd] in H. apply andb_prop in H. destruct H as [H Hmore].
  apply andb_prop in H. destruct H as [Hd Hkey]. apply negb_true_iff in Hkey.
  cbn [app auth_headers_loop]. rewrite get_field by assumption. cbn [bind].
  unfold is_api_key in Hkey. rewrite Hkey. apply IH. assumption.
Qed.

(** X6.  The loop over the security schemes stops at the first scheme of
    type ['apiKey']: the schemes after it are not read, so they change
    nothing, whatever they are.  A scheme before it that is not an
    object makes the generator raise [AttributeError]. *)
Theorem auth_header_stops_at_first (security_info : pyval)
    (before after : dict) (scheme_name scheme : pyval) :
  get security_info "schemes" (PDict []) =
    Ok (PDict (before ++ (scheme_name, scheme) :: after)) ->
  forallb (fun kv => is_dict (snd kv) && negb (is_api_key (snd kv))) before
    = true ->
  (is_dict scheme = true -> is_api_key scheme = true ->
   _generate_auth_headers security_info =
   Ok ("'" ^^ str (field scheme "name" (PStr "X-API-Key")) ^^ "': API_KEY,"))
  /\ (is_dict scheme = false ->
      _generate_auth_headers security_info = Raise AttributeError).
Proof.
  intros Hschemes Hbefore. unfold _generate_auth_headers.
  rewrite Hschemes. cbn [bind items].
  rewrite auth_headers_loop_passes by assumption.
  cbn [auth_headers_loop]. split.
  - intros Hd Hkey. rewrite get_field by assumption. cbn [bind].
    unfold is_api_key in Hkey. rewrite Hkey.
    rewrite get_field by assumption. reflexivity.
  - intros Hd. destruct scheme; try discriminate; reflexivity.
Qed.

Lemma auth_header_stops_at_first_witness :
  _generate_auth_headers
    (PDict [(PStr "schemes",
             PDict ([(PStr "basic", Examples.obj [("type", PStr "http")])] ++
                    (PStr "key",
                     Examples.obj [("type", PStr "apiKey");
                                   ("name", PStr "X-Api-Key")])
                    :: [(PStr "broken", PNone)]))])
  = Ok "'X-Api-Key': API_KEY,"
  /\ _generate_auth_headers
       (PDict [(PStr "schemes",
                PDict ([] ++ (PStr "broken", PNone)
                       :: [(PStr "key",
                            Examples.obj [("type", PStr "apiKey")])]))])
     = Raise AttributeError.
Proof.
  split.
  - refine (proj1 (auth_header_stops_at_first _
                     [(PStr "basic", Examples.obj [("type", PStr "http")])]
                     [(PStr "broken", PNone)]
                     (PStr "key")
                     (Examples.obj [("type", PStr "apiKey");
                                    ("name", PStr "X-Api-Key")])
                     _ _) _ _); reflexivity.
  - refine (proj2 (auth_header_stops_at_first _ []
                     [(PStr "key", Examples.obj [("type", PStr "apiKey")])]
                     (PStr "broken") PNone _ _) _); reflexivity.
Defined.

End AuthOrder.

(* ================================================================== *)
(** ** The base URL *)

Section BaseUrl.
Import Py OpenAPIToMCP Spec.

(** X7.  For the generator of a document: without [servers], or with an
    empty list of them, the base URL is the empty string and nothing is
    raised; with a list of servers it is the [url] of the first one,
    whatever follows it, and [KeyError] is raised when the first server
    is an object without [url]. *)
Theorem base_url_of_first_server (openapi_spec : pyval) (self : t) :
  __init__ openapi_spec = Ok self ->
  (has_field openapi_spec "servers" = false -> get_base_url self = Ok (PStr ""))
  /\ (field openapi_spec "servers" (PList []) = PList [] ->
      get_base_url self = Ok (PStr ""))
  /\ (forall (first : pyval) (others : list pyval),
        field openapi_spec "servers" (PList []) = PList (first :: others) ->
        get_base_url self = getitem first "url"
        /\ (forall url, lookup (entries first) (PStr "url") = Some url ->
                        is_dict first = true -> get_base_url self = Ok url)
        /\ (is_dict first = true -> has_field first "url" = false ->
            get_base_url self = Raise KeyError)).
Proof.
  intros Hinit.
  assert (Hd : is_dict openapi_spec = true).
  { destruct openapi_spec; try discriminate; reflexivity. }
  rewrite init_spec in Hinit by assumption. inversion Hinit. subst self.
  unfold get_base_url. cbn [servers].
  split; [|split].
  - intros H. rewrite field_absent by assumption. reflexivity.
  - intros ->. reflexivity.
  - intros first others ->. split; [reflexivity|]. split.
    + intros url Hurl Hfirst. destruct first; try discriminate.
      cbn [entries] in Hurl. unfold getitem. rewrite Hurl. reflexivity.
    + intros Hfirst Hno. destruct first; try discriminate.
      unfold has_field in Hno. unfold getitem.
      destruct (lookup m (PStr "url")); [discriminate | reflexivity].
Qed.

Lemma base_url_of_first_server_witness :
  __init__ Examples.document = Ok Examples.generator
  /\ get_base_url Examples.generator = Ok (PStr "").
Proof.
  split; [reflexivity|].
  refine (proj1 (base_url_of_first_server Examples.document Examples.generator
                   _) _); reflexivity.
Defined.

End BaseUrl.

(* ================================================================== *)
(** ** The server name *)

Section PascalCase.
Import Py OpenAPIToMCP Spec.

Ltac by_cases_on c :=
  destruct c as [[] [] [] [] [] [] [] []]; vm_compute; intros;
  try reflexivity; try discriminate.

Lemma upper_char_alnum (c : ascii) :
  is_alnum c = true -> is_alnum (upper_char c) = true.
Proof. by_cases_on c. Qed.

Lemma lower_char_alnum (c : ascii) :
  is_alnum c = true -> is_alnum (lower_char c) = true.
Proof. by_cases_on c. Qed.

Lemma upper_char_not_lower (c : ascii) : is_lower (upper_char c) = false.
Proof. by_cases_on c. Qed.

Lemma alnum_not_space (c : ascii) : is_alnum c = true -> is_space c = false.
Proof. by_cases_on c. Qed.

Lemma all_chars_weaken (p q : ascii -> bool) (s : string) :
  (forall c, p c = true -> q c = true) ->
  all_chars p s = true -> all_chars q s = true.
Proof.
  intros Hpq. induction s as [|c rest IH]; intros H; [reflexivity|].
  cbn [all_chars] in *. apply andb_prop in H. destruct H as [Hc Hrest].
  rewrite (Hpq c Hc), IH by assumption. reflexivity.
Qed.

Lemma all_chars_append (p : ascii -> bool) (a b : string) :
  all_chars p (a ^^ b) = all_chars p a && all_chars p b.
Proof.
  induction a as [|c rest IH]; [reflexivity|].
  cbn [String.append all_chars]. rewrite IH, andb_assoc. reflexivity.
Qed.

(** The pieces of a split hold the characters of the text that are no
    separators. *)
Lemma str_split_by_pieces (sep q : ascii -> bool) (s : string) :
  all_chars q s = true ->
  Forall (fun w => all_chars (fun c => q c && negb (sep c)) w = true)
         (str_split_by sep s).
Proof.
  induction s as [|c rest IH]; intros H.
  - repeat constructor.
  - cbn [all_chars] in H. apply andb_prop in H. destruct H as [Hc Hrest].
    specialize (IH Hrest). cbn [str_split_by].
    destruct (sep c) eqn:Hsep.
    + constructor; [reflexivity | assumption].
    + destruct (str_split_by sep rest) as [|piece pieces].
      * repeat constructor. cbn [all_chars]. rewrite Hc, Hsep. reflexivity.
      * inversion IH; subst. constructor; [|assumption].
        cbn [all_chars]. rewrite Hc, Hsep. assumption.
Qed.

Lemma blank_symbols_chars (s : string) :
  all_chars (fun c => is_alnum c || Ascii.eqb c " ") (blank_symbols s) = true.
Proof.
  unfold blank_symbols. induction s as [|c rest IH]; [reflexivity|].
  cbn [map_string all_chars]. rewrite IH, andb_true_r.
  destruct (is_alnum c) eqn:E; [rewrite E|]; reflexivity.
Qed.

Lemma words_alnum (s : string) :
  Forall (fun w => all_chars is_alnum w = true) (str_words (blank_symbols s)).
Proof.
  unfold str_words. apply Forall_forall. intros w Hin.
  apply filter_In in Hin. destruct Hin as [Hin _].
  pose proof (str_split_by_pieces is_space _ _ (blank_symbols_chars s)) as H.
  rewrite Forall_forall in H. specialize (H w Hin).
  revert H. apply all_chars_weaken. intros c Hc.
  apply andb_prop in Hc. destruct Hc as [Hq Hs].
  apply orb_prop in Hq. destruct Hq as [Hq|Hq]; [assumption|].
  apply Ascii.eqb_eq in Hq. subst c. discriminate.
Qed.

Lemma capitalize_alnum (w : string) :
  all_chars is_alnum w = true -> all_chars is_alnum (str_capitalize w) = true.
Proof.
  destruct w as [|c rest]; [reflexivity|]. cbn [all_chars str_capitalize].
  intros H. apply andb_prop in H. destruct H as [Hc Hrest].
  rewrite upper_char_alnum by assumption. cbn [andb].
  clear c Hc. unfold str_lower.
  induction rest as [|c rest IH]; [reflexivity|].
  cbn [all_chars map_string] in *. apply andb_prop in Hrest.
  destruct Hrest as [Hc Hrest].
  rewrite lower_char_alnum, IH by assumption. reflexivity.
Qed.

Lemma join_words_alnum (ws : list string) :
  Forall (fun w => all_chars is_alnum w = true) ws ->
  all_chars is_alnum (str_join "" ws) = true.
Proof.
  unfold str_join. induction ws as [|w rest IH]; intros H; [reflexivity|].
  inversion H as [|? ? Hw Hrest]; subst. cbn [String.concat].
  destruct rest as [|w' rest']; [assumption|].
  rewrite all_chars_append, Hw. cbn [String.append andb].
  apply IH. assumption.
Qed.

(** Words there are iff some character of the text is no white space. *)
Lemma str_words_none (s : string) :
  str_words s = [] <-> all_chars is_space s = true.
Proof.
  unfold str_words. induction s as [|c rest IH].
  - split; reflexivity.
  - cbn [str_split_by all_chars]. destruct (is_space c) eqn:Hc.
    + cbn [filter String.eqb negb andb]. exact IH.
    + cbn [andb]. split; [|discriminate].
      destruct (str_split_by is_space rest); cbn [filter String.eqb negb];
        discriminate.
Qed.

Lemma blank_symbols_spaces (s : string) :
  all_chars is_space (blank_symbols s) =
  all_chars (fun c => negb (is_alnum c)) s.
Proof.
  unfold blank_symbols. induction s as [|c rest IH]; [reflexivity|].
  cbn [map_string all_chars]. rewrite IH.
  destruct (is_alnum c) eqn:E; cbn [negb]; [|reflexivity].
  rewrite (alnum_not_space c E). reflexivity.
Qed.

(** X8.  [_to_pascal_case] turns any text into a name made of ASCII
    letters and digits only, which does not begin with a lower-case
    letter; the name is empty exactly when the text holds no letter and
    no digit. *)
Theorem pascal_case_is_alphanumeric (text : string) :
  exists name : string,
    _to_pascal_case (PStr text) = Ok name
    /\ all_chars is_alnum name = true
    /\ match name with
       | EmptyString => True
       | String c _ => is_lower c = false
       end
    /\ (name = "" <-> all_chars (fun c => negb (is_alnum c)) text = true).
Proof.
  eexists. split; [reflexivity|].
  pose proof (words_alnum text) as Halnum.
  pose proof (str_words_none (blank_symbols text)) as Hnone.
  rewrite blank_symbols_spaces in Hnone.
  split; [|split].
  - apply join_words_alnum. apply Forall_forall. intros w Hin.
    apply in_map_iff in Hin. destruct Hin as (w0 & <- & Hin).
    apply capitalize_alnum. rewrite Forall_forall in Halnum. auto.
  - assert (Hwords : forall w, In w (str_words (blank_symbols text)) -> w <> "").
    { intros w Hin. unfold str_words in Hin. apply filter_In in Hin.
      destruct Hin as [_ Hw]. apply negb_true_iff, String.eqb_neq in Hw.
      assumption. }
    destruct (str_words (blank_symbols text)) as [|w rest]; [exact I|].
    destruct w as [|c r]; [exfalso; apply (Hwords ""); [left|]; reflexivity|].
    unfold str_join. cbn [map str_capitalize String.concat].
    destruct (map str_capitalize rest); cbn [String.append];
      apply upper_char_not_lower.
  - rewrite <- Hnone. split.
    + intros Hempty.
      assert (Hwords : forall w, In w (str_words (blank_symbols text)) ->
                                 w <> "").
      { intros w Hin. unfold str_words in Hin. apply filter_In in Hin.
        destruct Hin as [_ Hw]. apply negb_true_iff, String.eqb_neq in Hw.
        assumption. }
      destruct (str_words (blank_symbols text)) as [|w rest]; [reflexivity|].
      destruct w as [|c r]; [exfalso; apply (Hwords ""); [left|]; reflexivity|].
      unfold str_join in Hempty. cbn [map str_capitalize String.concat] in Hempty.
      destruct (map str_capitalize rest); discriminate.
    + intros ->. reflexivity.
Qed.

(** A text that is not a string is refused by [re.sub]. *)
Example pascal_case_of_title :
  _to_pascal_case (PStr "pet-store API (v2)") = Ok "PetStoreApiV2"
  /\ _to_pascal_case (PStr "--") = Ok ""
  /\ _to_pascal_case PNone = Raise TypeError.
Proof. repeat split. Qed.

End PascalCase.

(* ================================================================== *)
(** ** The type resolver on arrays and enumerations *)

Section TypeResolver.
Import Py OpenAPIToMCP Spec.

Lemma array_of_type (items : pyval) :
  _get_typescript_type (array_of items) =
  (item_type <- _get_typescript_type items ;; Ok (item_type ^^ "[]")).
Proof. reflexivity. Qed.

(** X9.  Arrays nest: the type of an array of arrays ... of [base],
    [depth] levels deep, is the type of [base] followed by [depth] pairs
    of brackets, and an error of [base] comes up unchanged.  An array
    without [items] is an array of [any]. *)
Theorem nested_array_type (depth : nat) (base : pyval) :
  (forall ty : string,
     _get_typescript_type base = Ok ty ->
     _get_typescript_type (nested_array depth base) = Ok (ty ^^ brackets depth))
  /\ (forall e : exn,
        _get_typescript_type base = Raise e ->
        _get_typescript_type (nested_array depth base) = Raise e)
  /\ _get_typescript_type (PDict [(PStr "type", PStr "array")]) = Ok "any[]".
Proof.
  split; [|split; [|reflexivity]].
  - intros ty Hbase. induction depth as [|d IH]; cbn [nested_array brackets].
    + rewrite append_empty. assumption.
    + rewrite array_of_type, IH. cbn [bind].
      rewrite append_assoc. reflexivity.
  - intros e Hbase. induction depth as [|d IH]; cbn [nested_array].
    + assumption.
    + rewrite array_of_type, IH. reflexivity.
Qed.

Lemma nested_array_type_witness :
  _get_typescript_type
    (nested_array 2 (PDict [(PStr "type", PStr "integer")])) = Ok "number[][]"
  /\ _get_typescript_type (nested_array 3 (PStr "integer")) = Raise AttributeError.
Proof.
  split.
  - refine (proj1 (nested_array_type 2 (PDict [(PStr "type", PStr "integer")]))
              "number" _). reflexivity.
  - refine (proj1 (proj2 (nested_array_type 3 (PStr "integer")))
              AttributeError _). reflexivity.
Defined.

(** X10.  An enumeration is honoured for strings only, and only when it
    is not empty: a string schema with the values [v1 .. vn], [n > 0], is
    the union of the values, each between double quotes as it is (no
    escaping), in their order; with no [enum], a null one or an empty one
    it is [string]; a schema of type [integer], [number] or [boolean]
    keeps its type whatever [enum] it has. *)
Theorem enum_only_for_strings (schema : dict) :
  (lookup schema (PStr "type") = Some (PStr "string") ->
   (forall values : list string,
      lookup schema (PStr "enum") = Some (PList (map PStr values)) ->
      _get_typescript_type (PDict schema) =
      Ok (match values with
          | [] => "string"
          | _ :: _ => str_join " | " (map quoted values)
          end))
   /\ (lookup schema (PStr "enum") = None \/
       lookup schema (PStr "enum") = Some PNone ->
       _get_typescript_type (PDict schema) = Ok "string"))
  /\ (lookup schema (PStr "type") = Some (PStr "integer") \/
      lookup schema (PStr "type") = Some (PStr "number") ->
      _get_typescript_type (PDict schema) = Ok "number")
  /\ (lookup schema (PStr "type") = Some (PStr "boolean") ->
      _get_typescript_type (PDict schema) = Ok "boolean").
Proof.
  split; [|split].
  - intros Htype. split.
    + intros values Henum. cbn [_get_typescript_type].
      rewrite Htype, Henum. cbn [eq_str key_eq String.eqb Ascii.eqb Bool.eqb].
      destruct values as [|v rest]; [reflexivity|].
      cbn [map truthy iter bind]. do 2 f_equal.
      rewrite map_map. reflexivity.
    + intros [Henum|Henum]; cbn [_get_typescript_type];
        rewrite Htype, Henum; reflexivity.
  - intros [Htype|Htype]; cbn [_get_typescript_type]; rewrite Htype;
      reflexivity.
  - intros Htype. cbn [_get_typescript_type]. rewrite Htype. reflexivity.
Qed.

Lemma enum_only_for_strings_witness :
  _get_typescript_type
    (PDict [(PStr "type", PStr "string");
            (PStr "enum", PList (map PStr ["asc"; "desc"]))])
  = Ok (quoted "asc" ^^ " | " ^^ quoted "desc")
  /\ _get_typescript_type
       (PDict [(PStr "type", PStr "integer");
               (PStr "enum", PList [PInt 1; PInt 2])])
     = Ok "number".
Proof.
  split.
  - refine (proj1 (proj1 (enum_only_for_strings
                            [(PStr "type", PStr "string");
                             (PStr "enum", PList (map PStr ["asc"; "desc"]))])
                         _) ["asc"; "desc"] _); reflexivity.
  - refine (proj1 (proj2 (enum_only_for_strings
                            [(PStr "type", PStr "integer");
                             (PStr "enum", PList [PInt 1; PInt 2])])) _).
    left. reflexivity.
Defined.

End TypeResolver.

(* ================================================================== *)
(** ** Dispatch and routines of the rendered server *)

Section Rendering.
Import Py OpenAPIToMCP Spec.

Lemma upper_char_twice (c : ascii) : upper_char (upper_char c) = upper_char c.
Proof. destruct c as [[] [] [] [] [] [] [] []]; reflexivity. Qed.

Lemma lower_upper_char (c : ascii) : lower_char (upper_char c) = lower_char c.
Proof. destruct c as [[] [] [] [] [] [] [] []]; reflexivity. Qed.

Lemma str_upper_twice (s : string) : str_upper (str_upper s) = str_upper s.
Proof.
  unfold str_upper. induction s as [|c rest IH]; [reflexivity|].
  cbn [map_string]. rewrite upper_char_twice, IH. reflexivity.
Qed.

Lemma str_lower_upper (s : string) : str_lower (str_upper s) = str_lower s.
Proof.
  unfold str_lower, str_upper. induction s as [|c rest IH]; [reflexivity|].
  cbn [map_string]. rewrite lower_upper_char, IH. reflexivity.
Qed.

(** A loop that appends one line per item. *)
Lemma for_each_lines {A : Type} (body : A -> list string -> result (list string))
    (line : A -> string) (items : list A) :
  (forall x acc, In x items -> body x acc = Ok (acc ++ [line x])) ->
  forall acc, for_each items acc body = Ok (acc ++ map line items).
Proof.
  induction items as [|x rest IH]; intros Hbody acc.
  - cbn. rewrite app_nil_r. reflexivity.
  - cbn [for_each map]. rewrite Hbody by (left; reflexivity).
    rewrite IH by (intros; apply Hbody; right; assumption).
    rewrite <- app_assoc. reflexivity.
Qed.

(** X11.  The dispatch block of a well-formed document with ASCII path
    templates has one [case] per operation the generator lets through,
    in document order: the line [case '<name>':] followed by the line
    that returns [this.<name>(request.params.arguments)], where [<name>]
    is the operation's name, declared or synthesized; the cases are
    separated by a line break, and the renderer raises nothing. *)
Theorem dispatch_case_per_operation (self : t) :
  wf_paths self = true ->
  ascii_paths self = true ->
  (tools <- generate_tools self ;; _generate_tool_handlers tools) =
  Ok (str_join newline
        (map (fun op =>
                "        case '" ^^ str (rendered_name op) ^^ "':" ^^ newline ^^
                "          return await this." ^^ str (rendered_name op) ^^
                "(request.params.arguments);")
             (filter selected (operations self)))).
Proof.
  intros Hwf _. rewrite generate_tools_spec by assumption. cbn [bind].
  unfold _generate_tool_handlers.
  rewrite (for_each_lines _ (fun tool => handler_case (field tool "name" PNone))).
  - cbn [bind app]. rewrite map_map. reflexivity.
  - intros tool acc Hin. apply in_map_iff in Hin.
    destruct Hin as (op & <- & _). reflexivity.
Qed.

Lemma dispatch_case_per_operation_witness :
  wf_paths Examples.generator = true
  /\ ascii_paths Examples.generator = true
  /\ (tools <- generate_tools Examples.generator ;;
      _generate_tool_handlers tools) =
     Ok (str_join newline
           ["        case 'updateUsers':";
            "          return await this.updateUsers(request.params.arguments);";
            "        case 'fetchUser':";
            "          return await this.fetchUser(request.params.arguments);";
            "        case 'getUseraccounts':";
            "          return await this.getUseraccounts(request.params.arguments);"]).
Proof.
  assert (Hwf : wf_paths Examples.generator = true) by (vm_compute; reflexivity).
  assert (Hascii : ascii_paths Examples.generator = true)
    by (vm_compute; reflexivity).
  split; [exact Hwf|]. split; [exact Hascii|].
  rewrite (dispatch_case_per_operation Examples.generator Hwf Hascii).
  vm_compute. reflexivity.
Defined.

(** X12.  The routines of a well-formed document with ASCII path
    templates are one per operation the generator lets through, in
    document order, separated by an empty line.  Each is the text below:
    it bears the operation's name, sends the method key in lower case,
    sends the path template as it is written, its [{param}] parts
    included, and holds the line [data: args,] exactly when the
    operation has a request body and the method is POST, PUT or PATCH. *)
Theorem routine_per_operation (self : t) :
  wf_paths self = true ->
  ascii_paths self = true ->
  (tools <- generate_tools self ;; _generate_tool_methods tools) =
  Ok (str_join (newline ^^ newline)
        (map (fun op =>
                str_join newline
                  ["  private async " ^^ str (rendered_name op) ^^ "(args: any) {";
                   "    try {";
                   "      const response = await this.axiosInstance({";
                   "        method: '" ^^ str_lower (text (snd (fst op))) ^^ "',";
                   "        url: '" ^^ text (fst (fst op)) ^^ "'," ^^
                     (if truthy (field (snd op) "requestBody" PNone) &&
                         in_strs (str_upper (text (snd (fst op))))
                                 ["POST"; "PUT"; "PATCH"]
                      then newline ^^ "        data: args,"
                      else "");
                   "      });";
                   "";
                   "      return {";
                   "        content: [";
                   "          {";
                   "            type: 'text',";
                   "            text: JSON.stringify(response.data, null, 2),";
                   "          },";
                   "        ],";
                   "      };";
                   "    } catch (error) {";
                   "      if (axios.isAxiosError(error)) {";
                   "        return {";
                   "          content: [";
                   "            {";
                   "              type: 'text',";
                   "              text: `API error: ${error.response?.data?.error || error.response?.data?.message || error.message}`,";
                   "            },";
                   "          ],";
                   "          isError: true,";
                   "        };";
                   "      }";
                   "      throw error;";
                   "    }";
                   "  }"])
             (filter selected (operations self)))).
Proof.
  intros Hwf _. rewrite generate_tools_spec by assumption. cbn [bind].
  unfold _generate_tool_methods.
  rewrite (for_each_lines _
             (fun tool =>
                routine (field tool "name" PNone)
                        (str_lower (text (field tool "method" PNone)))
                        (field tool "path" PNone)
                        (if truthy (field tool "request_body" PNone) &&
                            in_strs (str_upper (text (field tool "method" PNone)))
                                    body_methods
                         then newline ^^ data_binding else ""))).
  - cbn [bind app]. rewrite map_map. do 2 f_equal. apply map_ext. intros op.
    unfold descriptor_of.
    change (field (tool_descriptor self (text (fst (fst op)))
                     (str_upper (text (snd (fst op)))) (snd op))
                  "name" PNone)
      with (rendered_name op).
    change (field (tool_descriptor self (text (fst (fst op)))
                     (str_upper (text (snd (fst op)))) (snd op))
                  "method" PNone)
      with (PStr (str_upper (text (snd (fst op))))).
    change (field (tool_descriptor self (text (fst (fst op)))
                     (str_upper (text (snd (fst op)))) (snd op))
                  "path" PNone)
      with (PStr (text (fst (fst op)))).
    change (field (tool_descriptor self (text (fst (fst op)))
                     (str_upper (text (snd (fst op)))) (snd op))
                  "request_body" PNone)
      with (field (snd op) "requestBody" PNone).
    cbn [text]. rewrite str_lower_upper, str_upper_twice. reflexivity.
  - intros tool acc Hin. apply in_map_iff in Hin.
    destruct Hin as (op & <- & _). unfold add_routine.
    rewrite (request_config_of_tool _ (str_upper (text (snd (fst op)))))
      by reflexivity.
    reflexivity.
Qed.

Lemma routine_per_operation_witness :
  wf_paths Examples.generator = true
  /\ ascii_paths Examples.generator = true
  /\ exists routines : string,
       (tools <- generate_tools Examples.generator ;;
        _generate_tool_methods tools) = Ok routines
       /\ str_contains routines
            ("  private async updateUsers(args: any) {" ^^ newline ^^
             "    try {" ^^ newline ^^
             "      const response = await this.axiosInstance({" ^^ newline ^^
             "        method: 'put'," ^^ newline ^^
             "        url: '/users/{id}'," ^^ newline ^^
             "        data: args," ^^ newline ^^
             "      });") = true
       /\ str_contains routines
            ("    }" ^^ newline ^^ "  }" ^^ newline ^^ newline ^^
             "  private async fetchUser(args: any) {" ^^ newline ^^
             "    try {" ^^ newline ^^
             "      const response = await this.axiosInstance({" ^^ newline ^^
             "        method: 'get'," ^^ newline ^^
             "        url: '/users/{id}'," ^^ newline ^^
             "      });") = true
       /\ str_contains routines
            ("  private async getUseraccounts(args: any) {" ^^ newline ^^
             "    try {" ^^ newline ^^
             "      const response = await this.axiosInstance({" ^^ newline ^^
             "        method: 'get'," ^^ newline ^^
             "        url: '/userAccounts'," ^^ newline ^^
             "      });") = true.
Proof.
  assert (Hwf : wf_paths Examples.generator = true) by (vm_compute; reflexivity).
  assert (Hascii : ascii_paths Examples.generator = true)
    by (vm_compute; reflexivity).
  split; [exact Hwf|]. split; [exact Hascii|].
  eexists. split.
  - exact (routine_per_operation Examples.generator Hwf Hascii).
  - repeat split; vm_compute; reflexivity.
Defined.

End Rendering.

(* ================================================================== *)
(** ** What the stripping of parameters leaves *)

Section Stripping.
Import Py OpenAPIToMCP Spec.







End Stripping.

(* ================================================================== *)
(** ** A parameter without name *)

Section MissingName.
Import Py OpenAPIToMCP Spec.

Lemma for_each_app {A S : Type} (body : A -> S -> result S) (a b : list A) :
  forall s : S,
  for_each (a ++ b) s body = (s' <- for_each a s body ;; for_each b s' body).
Proof.
  induction a as [|x rest IH]; intros s; [reflexivity|].
  cbn [app for_each]. destruct (body x s); [apply IH | reflexivity].
Qed.

(** A parameter that is an object and lies elsewhere is passed over. *)
Lemma add_parameter_elsewhere (location : string) (param schema : pyval) :
  is_dict param = true -> in_location location param = false ->
  add_parameter location param schema = Ok schema.
Proof.
  intros Hd Hloc. unfold add_parameter.
  rewrite get_field by assumption. cbn [bind].
  unfold in_location in Hloc. rewrite Hloc. reflexivity.
Qed.

(** A parameter of this location that has no name raises [KeyError]. *)
Lemma add_parameter_nameless (location : string) (param : pyval)
    (P : dict) (R : list pyval) :
  is_dict param = true -> in_location location param = true ->
  is_dict (field param "schema" (PDict [(PStr "type", PStr "string")])) = true ->
  has_field param "name" = false ->
  add_parameter location param (input_schema P R) = Raise KeyError.
Proof.
  intros Hd Hloc Hschema Hname. unfold add_parameter.
  rewrite (get_field param "in") by assumption. cbn [bind].
  unfold in_location in Hloc. rewrite Hloc.
  rewrite (get_field param "schema") by assumption. cbn [bind].
  rewrite (get_field _ "type") by assumption. cbn [bind].
  rewrite (get_field param "description") by assumption. cbn [bind].
  destruct param as [| | | | |m]; try discriminate.
  unfold has_field in Hname. unfold getitem.
  destruct (lookup m (PStr "name")); [discriminate | reflexivity].
Qed.

(** X14.  A parameter located in the path or in the query that has no
    [name] is not skipped: whatever the well-formed parameters around it,
    and whatever the request body, the synthesizer raises [KeyError].
    The same parameter located in the header is passed over. *)
Theorem nameless_parameter_raises (self : t) (operation nameless : pyval)
    (before after : list pyval) :
  is_dict operation = true ->
  field operation "parameters" (PList []) =
    PList (before ++ nameless :: after) ->
  forallb wf_param before = true ->
  forallb wf_param after = true ->
  is_dict nameless = true ->
  is_dict (field nameless "schema" (PDict [(PStr "type", PStr "string")]))
    = true ->
  has_field nameless "name" = false ->
  (located nameless = true ->
   _generate_input_schema self operation = Raise KeyError)
  /\ (located nameless = false -> wf_request_body self operation = true ->
      _generate_input_schema self operation = Ok (synthesized self operation)).
Proof.
  intros Hop Hparams Hbefore Hafter Hd Hschema Hname. split.
  - intros Hloc. unfold _generate_input_schema.
    rewrite (get_field operation "parameters") by assumption. cbn [bind].
    rewrite Hparams. cbn [iter bind].
    change empty_schema with (input_schema [] []).
    destruct (in_location "path" nameless) eqn:Hpath.
    + rewrite for_each_app, (parameters_loop "path") by auto. cbn [bind for_each].
      rewrite add_parameter_nameless by assumption. reflexivity.
    + unfold located in Hloc. rewrite Hpath in Hloc. cbn [orb] in Hloc.
      rewrite for_each_app, (parameters_loop "path") by auto. cbn [bind for_each].
      rewrite add_parameter_elsewhere by assumption.
      rewrite (parameters_loop "path") by auto. cbn [bind].
      rewrite for_each_app, (parameters_loop "query") by auto.
      cbn [bind for_each].
      rewrite add_parameter_nameless by assumption. reflexivity.
  - intros Hloc Hbody. apply generate_input_schema_spec.
    unfold wf_operation. rewrite Hop, Hbody, andb_true_r. cbn [andb].
    unfold wf_parameters, parameters. rewrite Hparams. cbn [is_list elements andb].
    rewrite forallb_app. cbn [forallb]. rewrite Hbefore, Hafter, andb_true_r.
    cbn [andb]. unfold wf_param. rewrite Hd. cbn [andb].
    unfold located in Hloc. rewrite Hloc. reflexivity.
Qed.

Lemma nameless_parameter_raises_witness :
  _generate_input_schema Examples.generator
    (Examples.obj
       [("parameters",
         PList [Examples.obj [("in", PStr "path"); ("name", PStr "id")];
                Examples.obj [("in", PStr "query"); ("required", PBool true)];
                Examples.obj [("in", PStr "header")]])])
  = Raise KeyError.
Proof.
  refine (proj1 (nameless_parameter_raises Examples.generator _
                   (Examples.obj [("in", PStr "query"); ("required", PBool true)])
                   [Examples.obj [("in", PStr "path"); ("name", PStr "id")]]
                   [Examples.obj [("in", PStr "header")]]
                   _ _ _ _ _ _ _) _); reflexivity.
Defined.

End MissingName.

(* ================================================================== *)
(** ** The capitalized segments of a synthesized name *)

Section CapitalizedSegments.
Import Py OpenAPIToMCP Spec.


















End CapitalizedSegments.
